(** * terraform.py: Terraform state to Ansible inventory

    A shallow embedding of [src/terraform.py]: the attribute accessors of
    [TerraformResource], the accumulator [AnsibleInventory] with its hosts
    and groups, the dispatch on the resource type and the final [to_dict],
    followed by the properties of the specification.

    Python dictionaries whose iteration order is observable (the attribute
    map of a resource) are association lists in iteration order; the others
    are [gmap]s; Python sets are [gset]s; [sorted] is a merge sort on the
    lexicographic order of strings. *)

From Stdlib Require Import String Ascii ZArith List Decimal DecimalString DecimalNat.
From stdpp Require Import gmap strings list fin_maps sorting.

Open Scope string_scope.

(** ** Exceptions and results *)

(** The exceptions the modelled code can raise.  [OutsideSchema] is not a
    Python exception: it marks a record whose attribute has a JSON type the
    provider's schema rules out (a hostname that is not a string, a [groups]
    that is not a list of strings ...); the model says nothing about what the
    script does with such a record. *)
Inductive exn :=
| KeyError (k : string)
| ValueError (literal : string)
| OutsideSchema (attr : string).

Inductive result (A : Type) :=
| Ok (a : A)
| Raise (e : exn).
Arguments Ok {A} a.
Arguments Raise {A} e.

#[global] Instance result_ret : MRet result := @Ok.
#[global] Instance result_bind : MBind result := λ A B f m,
  match m with
  | Ok a => f a
  | Raise e => Raise e
  end.

(** ** Attribute values *)

(** The JSON values an attribute holds under the provider's schema.  A
    pre-0.12 state stores strings only. *)
Inductive attr_value :=
| ANull
| AStr (s : string)
| AList (l : list string)
| AMap (m : gmap string string).

(** A parsed JSON object, in the order [keys()] enumerates it. *)
Definition pydict := list (string * attr_value).

(** [d.get(k)] *)
Fixpoint dict_get (d : pydict) (k : string) : option attr_value :=
  match d with
  | [] => None
  | (k', v) :: d' => if String.eqb k' k then Some v else dict_get d' k
  end.

(** No key is listed twice: what a Python [dict] guarantees. *)
Definition dict_wf (d : pydict) : Prop := NoDup (d.*1).

(** ** Strings: [int()], [str.format], [re.match] *)

Definition newline : ascii := ascii_of_nat 10.

(** The blanks [int()] skips on both sides of an ASCII literal: the
    horizontal tab, the line feed, the vertical tab, the form feed, the
    carriage return and the space.  The separators 28 to 31, which
    [str.strip] removes, are no blanks for [int()]. *)
Definition is_space (c : ascii) : bool :=
  let n := nat_of_ascii c in
  (Nat.leb 9 n && Nat.leb n 13) || Nat.eqb n 32.

Definition digit_of (c : ascii) : option Z :=
  let n := nat_of_ascii c in
  if Nat.leb 48 n && Nat.leb n 57 then Some (Z.of_nat (n - 48)) else None.

(** The digits of a literal, most significant first; one underscore may
    separate two digits (Python 3.6 and later).  [after_digit] tells whether
    the previous character was a digit. *)
Fixpoint int_digits (acc : Z) (after_digit : bool) (cs : list ascii) : option Z :=
  match cs with
  | [] => if after_digit then Some acc else None
  | c :: cs' =>
      match digit_of c with
      | Some d => int_digits (10 * acc + d) true cs'
      | None =>
          if Ascii.eqb c "_" && after_digit then int_digits acc false cs'
          else None
      end
  end.

Fixpoint lstrip (cs : list ascii) : list ascii :=
  match cs with
  | c :: cs' => if is_space c then lstrip cs' else cs
  | [] => []
  end.

Definition strip (cs : list ascii) : list ascii :=
  rev (lstrip (rev (lstrip cs))).

(** [int(s)] for a string [s], base ten: [None] stands for [ValueError].
    This is [int()] to the letter on the strings of [plain_literal] below.
    Beyond them [int()] differs: it also reads the decimal digits and the
    blanks other scripts have, from tables that change with the version of
    Python, and since Python 3.11 it raises [ValueError] for more than 4300
    digits unless that limit is lifted; [python_int] reads no character
    outside ASCII and knows no limit. *)
Definition python_int (s : string) : option Z :=
  match strip (list_ascii_of_string s) with
  | "-"%char :: cs => Z.opp <$> int_digits 0 false cs
  | "+"%char :: cs => int_digits 0 false cs
  | cs => int_digits 0 false cs
  end.

(** The strings on which [python_int] and [int()] agree whatever the
    version of Python (3.6 and later): ASCII characters only, and at most
    4300 of them. *)
Definition plain_literal (s : string) : bool :=
  forallb (λ c, Nat.ltb (nat_of_ascii c) 128) (list_ascii_of_string s)
  && Nat.leb (String.length s) 4300.



(** [str(i)] for a natural number. *)
Definition str_of_nat (i : nat) : string :=
  NilZero.string_of_uint (Nat.to_uint i).

(** ["{}.{}".format(key, i)] *)
Definition format_index (key : string) (i : nat) : string :=
  key ++ "." ++ str_of_nat i.

Fixpoint strip_prefix (p s : string) : option string :=
  match p, s with
  | EmptyString, _ => Some s
  | String a p', String b s' => if Ascii.eqb a b then strip_prefix p' s' else None
  | String _ _, EmptyString => None
  end.

(** What the group "dot star" of the pattern captures at the start of [s]:
    everything before the first line feed, since a dot matches any character
    but a line feed. *)
Fixpoint dot_star (s : string) : string :=
  match s with
  | EmptyString => EmptyString
  | String c s' => if Ascii.eqb c newline then EmptyString else String c (dot_star s')
  end.

(** Characters with a meaning of their own in a regular expression. *)
Definition regex_special (c : ascii) : bool :=
  bool_decide (c ∈ list_ascii_of_string ".^$*+?{}[]\|()").

(** The keys the source interpolates into its pattern unescaped and that
    still match themselves only. *)
Definition regex_plain (key : string) : bool :=
  forallb (λ c, negb (regex_special c)) (list_ascii_of_string key).

(** The [re.match] of [read_dict_attr]: the pattern is the start anchor, the
    key, an escaped dot and the group "dot star"; the result is [group(1)] on
    a match.  Exact for the keys with [regex_plain key = true]; every call in
    the source passes the key [vars]. *)
Definition re_match_group1 (key k : string) : option string :=
  dot_star <$> strip_prefix (key ++ ".") k.

(** ** TerraformResource *)

Record TerraformResource := {
  flat_attrs : bool;
  _type : option string;
  (** [source_json["type"]], when the record has one *)
  source_type : option string;
  (** [source_json["primary"]["attributes"]] or [source_json["attributes"]],
      when the record has that subtree *)
  source_attributes : option pydict;
}.

Definition _raw_attributes (self : TerraformResource) : result pydict :=
  match source_attributes self with
  | Some attrs => Ok attrs
  | None => Raise (KeyError "attributes")
  end.

(** [if self._type] holds for a string that is not empty. *)
Definition type (self : TerraformResource) : result string :=
  match _type self with
  | Some (String c t) => Ok (String c t)
  | _ =>
      match source_type self with
      | Some t => Ok t
      | None => Raise (KeyError "type")
      end
  end.

Definition is_ansible (self : TerraformResource) : result bool :=
  t ← type self; Ok (String.prefix "ansible_" t).

Definition read_attr (self : TerraformResource) (key : string) : result attr_value :=
  attrs ← _raw_attributes self;
  Ok (default ANull (dict_get attrs key)).

(** The loop of [read_list_attr]: [out.append(attrs["{}.{}".format(key, i)])]
    for the indices [idx]. *)
Fixpoint read_items (attrs : pydict) (key : string) (idx : list nat)
    (out : list string) : result (list string) :=
  match idx with
  | [] => Ok out
  | i :: idx' =>
      match dict_get attrs (format_index key i) with
      | None => Raise (KeyError (format_index key i))
      | Some (AStr v) => read_items attrs key idx' (out ++ [v])%list
      | Some _ => Raise (OutsideSchema (format_index key i))
      end
  end.

(** [None] is Python's [None]. *)
Definition read_list_attr (self : TerraformResource) (key : string)
    : result (option (list string)) :=
  attrs ← _raw_attributes self;
  if flat_attrs self then
    let length_key := key ++ ".#" in
    match dict_get attrs length_key with
    | None => Ok (Some [])
    | Some (AStr v) =>
        match python_int v with
        | None => Raise (ValueError v)
        | Some length =>
            if (length <? 1)%Z then Ok (Some [])
            else
              out ← read_items attrs key (seq 0 (Z.to_nat length)) [];
              Ok (Some out)
        end
    | Some _ => Raise (OutsideSchema length_key)
    end
  else
    match dict_get attrs key with
    | None | Some ANull => Ok None
    | Some (AList l) => Ok (Some l)
    | Some _ => Raise (OutsideSchema key)
    end.

(** One turn of the loop of [read_dict_attr] over [attrs.keys()]. *)
Definition read_dict_step (key : string) (out : gmap string attr_value)
    (kv : string * attr_value) : gmap string attr_value :=
  match re_match_group1 key kv.1 with
  | None => out
  | Some sub => if String.eqb sub "%" then out else <[sub := kv.2]> out
  end.

Definition read_dict_attr (self : TerraformResource) (key : string)
    : result (option (gmap string attr_value)) :=
  attrs ← _raw_attributes self;
  if flat_attrs self then
    Ok (Some (fold_left (read_dict_step key) attrs ∅))
  else
    match dict_get attrs key with
    | None => Ok (Some ∅)
    | Some ANull => Ok None
    | Some (AMap m) => Ok (Some (AStr <$> m))
    | Some _ => Raise (OutsideSchema key)
    end.

(** ** Truth values of optional arguments *)

(** [if groups:] fails for [None] and for an empty list. *)
Definition truthy_list (l : option (list string)) : bool :=
  match l with
  | Some (_ :: _) => true
  | _ => false
  end.

(** [if host_vars:] fails for [None] and for an empty dictionary. *)
Definition truthy_dict (d : option (gmap string attr_value)) : bool :=
  match d with
  | Some m => if decide (m = ∅) then false else true
  | None => false
  end.

(** [sorted(s)] for a set of strings. *)
Definition sorted (s : gset string) : list string :=
  merge_sort String.le (elements s).

(** ** AnsibleHost *)

Module AnsibleHost.

Record t := {
  hostname : string;
  groups : gset string;
  host_vars : gmap string attr_value;
}.

Definition update (groups' : option (list string))
    (host_vars' : option (gmap string attr_value)) (self : t) : t :=
  let self1 :=
    if truthy_dict host_vars'
    then {| hostname := hostname self; groups := groups self;
            host_vars := default ∅ host_vars' ∪ host_vars self |}
    else self in
  if truthy_list groups'
  then {| hostname := hostname self1;
          groups := groups self1 ∪ list_to_set (default [] groups');
          host_vars := host_vars self1 |}
  else self1.

Definition __init__ (hostname' : string) (groups' : option (list string))
    (host_vars' : option (gmap string attr_value)) : t :=
  update groups' host_vars'
    {| hostname := hostname'; groups := {["all"]}; host_vars := ∅ |}.

(** The host once [tidy] has run: [groups] is a sorted list from then on. *)
Record tidied := {
  tidy_hostname : string;
  tidy_groups : list string;
  tidy_host_vars : gmap string attr_value;
}.

Definition tidy (self : t) : tidied :=
  {| tidy_hostname := hostname self;
     tidy_groups := sorted (groups self);
     tidy_host_vars := host_vars self |}.

Definition get_vars (self : tidied) : gmap string attr_value :=
  tidy_host_vars self.

End AnsibleHost.

(** ** AnsibleGroup *)

(** The dictionary [AnsibleGroup.to_dict] builds, with its keys
    [children], [hosts] and [vars]. *)
Record group_dict := {
  dict_children : list string;
  dict_hosts : list string;
  dict_vars : gmap string attr_value;
}.

Module AnsibleGroup.

Record t := {
  groupname : string;
  hosts : gset string;
  children : gset string;
  group_vars : gmap string attr_value;
}.

Definition update (children' hosts' : option (list string))
    (group_vars' : option (gmap string attr_value)) (self : t) : t :=
  {| groupname := groupname self;
     hosts := if truthy_list hosts'
              then hosts self ∪ list_to_set (default [] hosts')
              else hosts self;
     children := if truthy_list children'
                 then children self ∪ list_to_set (default [] children')
                 else children self;
     group_vars := if truthy_dict group_vars'
                   then default ∅ group_vars' ∪ group_vars self
                   else group_vars self |}.

Definition __init__ (groupname' : string) (children' hosts' : option (list string))
    (group_vars' : option (gmap string attr_value)) : t :=
  update children' hosts' group_vars'
    {| groupname := groupname'; hosts := ∅; children := ∅; group_vars := ∅ |}.

Record tidied := {
  tidy_groupname : string;
  tidy_hosts : list string;
  tidy_children : list string;
  tidy_group_vars : gmap string attr_value;
}.

Definition tidy (self : t) : tidied :=
  {| tidy_groupname := groupname self;
     tidy_hosts := sorted (hosts self);
     tidy_children := sorted (children self);
     tidy_group_vars := group_vars self |}.

Definition to_dict (self : tidied) : group_dict :=
  {| dict_children := tidy_children self;
     dict_hosts := tidy_hosts self;
     dict_vars := tidy_group_vars self |}.

End AnsibleGroup.

(** ** AnsibleInventory *)

(** A top-level entry of the inventory document: the metadata with its
    [hostvars], or the dictionary of a group. *)
Inductive section :=
| MetaSection (hostvars : gmap string (gmap string attr_value))
| GroupSection (g : group_dict).

Module AnsibleInventory.

(** [inner_json] is never used by the source and is left out. *)
Record t := {
  groups : gmap string AnsibleGroup.t;
  hosts : gmap string AnsibleHost.t;
}.

Definition __init__ : t := {| groups := ∅; hosts := ∅ |}.

Definition update_groups (groupname : string) (children hosts' : option (list string))
    (group_vars : option (gmap string attr_value)) (self : t) : t :=
  let group :=
    match groups self !! groupname with
    | Some group => AnsibleGroup.update children hosts' group_vars group
    | None => AnsibleGroup.__init__ groupname children hosts' group_vars
    end in
  {| groups := <[groupname := group]> (groups self); hosts := hosts self |}.

Definition update_hosts (hostname : string) (groups' : option (list string))
    (host_vars : option (gmap string attr_value)) (self : t) : t :=
  let host :=
    match hosts self !! hostname with
    | Some host => AnsibleHost.update groups' host_vars host
    | None => AnsibleHost.__init__ hostname groups' host_vars
    end in
  let self1 := {| groups := groups self; hosts := <[hostname := host]> (hosts self) |} in
  if decide (AnsibleHost.groups host = ∅) then self1
  else set_fold (λ groupname acc, update_groups groupname None (Some [hostname]) None acc)
         self1 (AnsibleHost.groups host).

(** A name or key read with [read_attr]: a string under the schema. *)
Definition as_str (attr : string) (v : attr_value) : result string :=
  match v with
  | AStr s => Ok s
  | _ => Raise (OutsideSchema attr)
  end.

Definition add_host_resource (resource : TerraformResource) (self : t) : result t :=
  hostname ← read_attr resource "inventory_hostname";
  groups' ← read_list_attr resource "groups";
  host_vars ← read_dict_attr resource "vars";
  hostname ← as_str "inventory_hostname" hostname;
  Ok (update_hosts hostname groups' host_vars self).

Definition add_host_var_resource (resource : TerraformResource) (self : t) : result t :=
  hostname ← read_attr resource "inventory_hostname";
  key ← read_attr resource "key";
  value ← read_attr resource "value";
  key ← as_str "key" key;
  let host_vars := {[key := value]} in
  hostname ← as_str "inventory_hostname" hostname;
  Ok (update_hosts hostname None (Some host_vars) self).

Definition add_group_resource (resource : TerraformResource) (self : t) : result t :=
  groupname ← read_attr resource "inventory_group_name";
  children ← read_list_attr resource "children";
  group_vars ← read_dict_attr resource "vars";
  groupname ← as_str "inventory_group_name" groupname;
  Ok (update_groups groupname children None group_vars self).

Definition add_group_var_resource (resource : TerraformResource) (self : t) : result t :=
  groupname ← read_attr resource "inventory_group_name";
  key ← read_attr resource "key";
  value ← read_attr resource "value";
  key ← as_str "key" key;
  let group_vars := {[key := value]} in
  groupname ← as_str "inventory_group_name" groupname;
  Ok (update_groups groupname None None (Some group_vars) self).

(** [resource.type()] is a pure read, so the four calls of the source agree
    and one stands for them. *)
Definition add_resource (resource : TerraformResource) (self : t) : result t :=
  ty ← type resource;
  if String.eqb ty "ansible_host" then add_host_resource resource self
  else if String.eqb ty "ansible_host_var" then add_host_var_resource resource self
  else if String.eqb ty "ansible_group" then add_group_resource resource self
  else if String.eqb ty "ansible_group_var" then add_group_var_resource resource self
  else Ok self.

(** The hosts and the groups after the two loops of [to_dict] have run
    [tidy] on each of them. *)
Definition tidy_hosts (self : t) : gmap string AnsibleHost.tidied :=
  AnsibleHost.tidy <$> hosts self.

Definition tidy_groups (self : t) : gmap string AnsibleGroup.tidied :=
  AnsibleGroup.tidy <$> groups self.

(** The first loop: [out["_meta"]["hostvars"][hostname] = host.get_vars()]. *)
Definition hostvars (self : t) : gmap string (gmap string attr_value) :=
  map_fold (λ hostname host hv, <[hostname := AnsibleHost.get_vars host]> hv)
    ∅ (tidy_hosts self).

(** The second loop, [out[groupname] = group.to_dict()], runs on the
    dictionary that holds the metadata under ["_meta"]. *)
Definition to_dict (self : t) : gmap string section :=
  let out := {["_meta" := MetaSection (hostvars self)]} in
  map_fold (λ groupname group out, <[groupname := GroupSection (AnsibleGroup.to_dict group)]> out)
    out (tidy_groups self).

End AnsibleInventory.

(** ** The loop of [_main] *)

(** [if resource.is_ansible(): inventory.add_resource(resource)] *)
Definition main_step (inventory : AnsibleInventory.t) (resource : TerraformResource)
    : result AnsibleInventory.t :=
  relevant ← is_ansible resource;
  if relevant : bool then AnsibleInventory.add_resource resource inventory
  else Ok inventory.

Fixpoint main_loop (resources : list TerraformResource) (inventory : AnsibleInventory.t)
    : result AnsibleInventory.t :=
  match resources with
  | [] => Ok inventory
  | resource :: rest => inventory' ← main_step inventory resource; main_loop rest inventory'
  end.

(** [_main] from the resources of the state to the document it prints. *)
Definition _main (resources : list TerraformResource) : result (gmap string section) :=
  inventory ← main_loop resources AnsibleInventory.__init__;
  Ok (AnsibleInventory.to_dict inventory).

(** ** Upserts as data *)

(** The two upsert actions of the inventory with their arguments. *)
Inductive operation :=
| UpsertHost (hostname : string) (groups : option (list string))
    (host_vars : option (gmap string attr_value))
| UpsertGroup (groupname : string) (children hosts : option (list string))
    (group_vars : option (gmap string attr_value)).

Definition apply_operation (self : AnsibleInventory.t) (o : operation) : AnsibleInventory.t :=
  match o with
  | UpsertHost hostname groups host_vars =>
      AnsibleInventory.update_hosts hostname groups host_vars self
  | UpsertGroup groupname children hosts group_vars =>
      AnsibleInventory.update_groups groupname children hosts group_vars self
  end.

Definition run (ops : list operation) (self : AnsibleInventory.t) : AnsibleInventory.t :=
  fold_left apply_operation ops self.

(** ** Predicates on inventories *)

(** Every host has the group [all] among its groups. *)
Definition every_host_in_all (self : AnsibleInventory.t) : Prop :=
  ∀ h host, AnsibleInventory.hosts self !! h = Some host →
    "all" ∈ AnsibleHost.groups host.

(** Every group a host names exists and lists that host. *)
Definition memberships_registered (self : AnsibleInventory.t) : Prop :=
  ∀ h host g, AnsibleInventory.hosts self !! h = Some host →
    g ∈ AnsibleHost.groups host →
    ∃ group, AnsibleInventory.groups self !! g = Some group ∧
             h ∈ AnsibleGroup.hosts group.

(** No group of [a] is lost in [b], nor any of its hosts or children. *)
Definition grows (a b : AnsibleInventory.t) : Prop :=
  ∀ g group, AnsibleInventory.groups a !! g = Some group →
    ∃ group', AnsibleInventory.groups b !! g = Some group' ∧
              AnsibleGroup.hosts group ⊆ AnsibleGroup.hosts group' ∧
              AnsibleGroup.children group ⊆ AnsibleGroup.children group'.

(** ** Records and the upserts they stand for *)

(** The upsert [_main] performs for a record: none for a record that is
    skipped or ignored. *)
Definition operation_of (resource : TerraformResource) : result (option operation) :=
  relevant ← is_ansible resource;
  if relevant : bool then
    ty ← type resource;
    if String.eqb ty "ansible_host" then
      hostname ← read_attr resource "inventory_hostname";
      groups ← read_list_attr resource "groups";
      host_vars ← read_dict_attr resource "vars";
      hostname ← AnsibleInventory.as_str "inventory_hostname" hostname;
      Ok (Some (UpsertHost hostname groups host_vars))
    else if String.eqb ty "ansible_host_var" then
      hostname ← read_attr resource "inventory_hostname";
      key ← read_attr resource "key";
      value ← read_attr resource "value";
      key ← AnsibleInventory.as_str "key" key;
      hostname ← AnsibleInventory.as_str "inventory_hostname" hostname;
      Ok (Some (UpsertHost hostname None (Some {[key := value]})))
    else if String.eqb ty "ansible_group" then
      groupname ← read_attr resource "inventory_group_name";
      children ← read_list_attr resource "children";
      group_vars ← read_dict_attr resource "vars";
      groupname ← AnsibleInventory.as_str "inventory_group_name" groupname;
      Ok (Some (UpsertGroup groupname children None group_vars))
    else if String.eqb ty "ansible_group_var" then
      groupname ← read_attr resource "inventory_group_name";
      key ← read_attr resource "key";
      value ← read_attr resource "value";
      key ← AnsibleInventory.as_str "key" key;
      groupname ← AnsibleInventory.as_str "inventory_group_name" groupname;
      Ok (Some (UpsertGroup groupname None None (Some {[key := value]})))
    else Ok None
  else Ok None.

(** The record is an [ansible_host] or an [ansible_host_var] for [hostname]. *)
Definition declares_host (resource : TerraformResource) (hostname : string) : Prop :=
  (type resource = Ok "ansible_host" ∨ type resource = Ok "ansible_host_var") ∧
  read_attr resource "inventory_hostname" = Ok (AStr hostname).

(** The record is an [ansible_host_var] giving [key] the value [value] on
    [hostname]. *)
Definition host_var_decl (resource : TerraformResource) (hostname key : string)
    (value : attr_value) : Prop :=
  type resource = Ok "ansible_host_var" ∧
  read_attr resource "inventory_hostname" = Ok (AStr hostname) ∧
  read_attr resource "key" = Ok (AStr key) ∧
  read_attr resource "value" = Ok value.

(** The record is an [ansible_group_var] giving [key] the value [value] on
    [groupname]. *)
Definition group_var_decl (resource : TerraformResource) (groupname key : string)
    (value : attr_value) : Prop :=
  type resource = Ok "ansible_group_var" ∧
  read_attr resource "inventory_group_name" = Ok (AStr groupname) ∧
  read_attr resource "key" = Ok (AStr key) ∧
  read_attr resource "value" = Ok value.

(** The same record over another attribute subtree ([None]: no subtree). *)
Definition set_attributes (attrs : option pydict) (resource : TerraformResource)
    : TerraformResource :=
  {| flat_attrs := flat_attrs resource; _type := _type resource;
     source_type := source_type resource; source_attributes := attrs |}.

(** The four types [add_resource] has a handler for. *)
Definition handled_types : list string :=
  ["ansible_host"; "ansible_host_var"; "ansible_group"; "ansible_group_var"].

(** [l] lists the set [X] in lexicographic order, and is what sorting any
    enumeration of [X] gives. *)
Definition sorted_listing (X : gset string) (l : list string) : Prop :=
  StronglySorted String.le l ∧
  (∀ x, x ∈ l ↔ x ∈ X) ∧
  ∀ l', NoDup l' → (∀ x, x ∈ l' ↔ x ∈ X) → merge_sort String.le l' = l.

(** A record of the 0.12 format, whose type comes from its resource group. *)
Definition nested_record (ty : string) (attrs : pydict) : TerraformResource :=
  {| flat_attrs := false; _type := Some ty; source_type := None;
     source_attributes := Some attrs |}.

(** ** Auxiliary definitions *)

(** The string holds a line feed. *)
Fixpoint has_line_feed (s : string) : bool :=
  match s with
  | EmptyString => false
  | String c s' => Ascii.eqb c newline || has_line_feed s'
  end.

(** A record of the pre-0.12 format, which carries its type itself. *)
Definition flat_record (ty : string) (attrs : pydict) : TerraformResource :=
  {| flat_attrs := true; _type := None; source_type := Some ty;
     source_attributes := Some attrs |}.

(** The attribute key [vars.a], a line feed, [b]. *)
Definition key_with_line_feed : string := "vars.a" ++ String newline "b".

(** The group [update_groups(groupname, hosts=[hostname])] leaves under
    [groupname] when [old] was there. *)
Definition enrol (hostname groupname : string) (old : option AnsibleGroup.t)
    : AnsibleGroup.t :=
  match old with
  | Some group => AnsibleGroup.update None (Some [hostname]) None group
  | None => AnsibleGroup.__init__ groupname None (Some [hostname]) None
  end.

(** The loop [for groupname in host.groups] of [update_hosts]. *)
Definition enrol_all (hostname : string) (S : gset string) (self : AnsibleInventory.t)
    : AnsibleInventory.t :=
  set_fold (λ groupname acc,
      AnsibleInventory.update_groups groupname None (Some [hostname]) None acc) self S.

(** The host [update_hosts] stores under [hostname]. *)
Definition upserted_host (hostname : string) (groups' : option (list string))
    (host_vars : option (gmap string attr_value)) (self : AnsibleInventory.t)
    : AnsibleHost.t :=
  match AnsibleInventory.hosts self !! hostname with
  | Some host => AnsibleHost.update groups' host_vars host
  | None => AnsibleHost.__init__ hostname groups' host_vars
  end.

(** The upsert writes the variable [key] of the host [name]. *)
Definition sets_host_var (o : operation) (name key : string) : Prop :=
  match o with
  | UpsertHost hostname _ host_vars =>
      hostname = name ∧ is_Some (default ∅ host_vars !! key)
  | UpsertGroup _ _ _ _ => False
  end.

(** The upsert writes the variable [key] of the group [name]. *)
Definition sets_group_var (o : operation) (name key : string) : Prop :=
  match o with
  | UpsertHost _ _ _ => False
  | UpsertGroup groupname _ _ group_vars =>
      groupname = name ∧ is_Some (default ∅ group_vars !! key)
  end.

(** The record leads to an upsert for which [sets] holds. *)
Definition record_sets (sets : operation → Prop) (resource : TerraformResource) : Prop :=
  ∃ o, operation_of resource = Ok (Some o) ∧ sets o.

(** The host [name] has the value [v] under [key]. *)
Definition host_var_is (self : AnsibleInventory.t) (name key : string) (v : attr_value) : Prop :=
  ∃ host, AnsibleInventory.hosts self !! name = Some host ∧
          AnsibleHost.host_vars host !! key = Some v.

(** The group [name] has the value [v] under [key]. *)
Definition group_var_is (self : AnsibleInventory.t) (name key : string) (v : attr_value) : Prop :=
  ∃ group, AnsibleInventory.groups self !! name = Some group ∧
           AnsibleGroup.group_vars group !! key = Some v.

(** ** Further predicates on inventories *)

(** Every host and every group is filed under its own name. *)
Definition filed_under_own_name (self : AnsibleInventory.t) : Prop :=
  (∀ h host, AnsibleInventory.hosts self !! h = Some host → AnsibleHost.hostname host = h) ∧
  (∀ g group, AnsibleInventory.groups self !! g = Some group →
     AnsibleGroup.groupname group = g).

(** Nothing of [a] is missing in [b]: no host, none of its groups or
    variable names, no group, none of its hosts, children or variable
    names. *)
Definition nothing_removed (a b : AnsibleInventory.t) : Prop :=
  (∀ h host, AnsibleInventory.hosts a !! h = Some host →
     ∃ host', AnsibleInventory.hosts b !! h = Some host' ∧
       AnsibleHost.groups host ⊆ AnsibleHost.groups host' ∧
       dom (AnsibleHost.host_vars host) ⊆ dom (AnsibleHost.host_vars host')) ∧
  (∀ g group, AnsibleInventory.groups a !! g = Some group →
     ∃ group', AnsibleInventory.groups b !! g = Some group' ∧
       AnsibleGroup.hosts group ⊆ AnsibleGroup.hosts group' ∧
       AnsibleGroup.children group ⊆ AnsibleGroup.children group' ∧
       dom (AnsibleGroup.group_vars group) ⊆ dom (AnsibleGroup.group_vars group')).

(** ** What an upsert gives *)

(** The upsert is an [update_hosts] for [h] that names the group [g]. *)
Definition names_group (o : operation) (h g : string) : Prop :=
  match o with
  | UpsertHost hostname groups _ => hostname = h ∧ g ∈ default [] groups
  | UpsertGroup _ _ _ _ => False
  end.

(** The upsert is an [update_groups] for [g] with [h] among its hosts. *)
Definition gives_host (o : operation) (g h : string) : Prop :=
  match o with
  | UpsertHost _ _ _ => False
  | UpsertGroup groupname _ hosts _ => groupname = g ∧ h ∈ default [] hosts
  end.

(** The upsert is an [update_groups] for [g] with [c] among its children. *)
Definition gives_child (o : operation) (g c : string) : Prop :=
  match o with
  | UpsertHost _ _ _ => False
  | UpsertGroup groupname children _ _ => groupname = g ∧ c ∈ default [] children
  end.

(** The value the upsert writes for the variable [k] of the host [h]. *)
Definition host_write (h k : string) (o : operation) : option attr_value :=
  match o with
  | UpsertHost hostname _ host_vars =>
      if decide (hostname = h) then default ∅ host_vars !! k else None
  | UpsertGroup _ _ _ _ => None
  end.

(** The value the upsert writes for the variable [k] of the group [g]. *)
Definition group_write (g k : string) (o : operation) : option attr_value :=
  match o with
  | UpsertHost _ _ _ => None
  | UpsertGroup groupname _ _ group_vars =>
      if decide (groupname = g) then default ∅ group_vars !! k else None
  end.

(** The value of the last upsert of the list that writes one. *)
Fixpoint last_write (write : operation → option attr_value) (ops : list operation)
    : option attr_value :=
  match ops with
  | [] => None
  | o :: ops' =>
      match last_write write ops' with
      | Some v => Some v
      | None => write o
      end
  end.

(** The variable [k] of the host [h], when there is one. *)
Definition host_var (self : AnsibleInventory.t) (h k : string) : option attr_value :=
  host ← AnsibleInventory.hosts self !! h; AnsibleHost.host_vars host !! k.

(** The variable [k] of the group [g], when there is one. *)
Definition group_var (self : AnsibleInventory.t) (g k : string) : option attr_value :=
  group ← AnsibleInventory.groups self !! g; AnsibleGroup.group_vars group !! k.

(** The group [g] is there and has [c] among its children. *)
Definition child_of (self : AnsibleInventory.t) (g c : string) : Prop :=
  ∃ group, AnsibleInventory.groups self !! g = Some group ∧
           c ∈ AnsibleGroup.children group.

(** The group [g] is there and has [h] among its hosts. *)
Definition listed_in (self : AnsibleInventory.t) (g h : string) : Prop :=
  ∃ group, AnsibleInventory.groups self !! g = Some group ∧
           h ∈ AnsibleGroup.hosts group.

(** The host [h] is there and has [g] among its groups. *)
Definition member_of (self : AnsibleInventory.t) (h g : string) : Prop :=
  ∃ host, AnsibleInventory.hosts self !! h = Some host ∧
          g ∈ AnsibleHost.groups host.

(** ** TerraformState *)

(** The JSON object a [TerraformResource] wraps: a resource of a module
    (pre-0.12) or an instance of a resource (0.12), with its ["type"] and its
    attribute subtree when it has them. *)
Record source_json := {
  json_type : option string;
  json_attributes : option pydict;
}.

(** A module of a pre-0.12 state: its ["resources"], a dictionary from
    resource names to resources, in the order [values()] enumerates. *)
Record module_json := {
  module_resources : option (list (string * source_json));
}.

(** A resource of a 0.12 state: its ["type"] and its ["instances"]. *)
Record resource_json := {
  resource_type : option string;
  resource_instances : option (list source_json);
}.

(** The state document: its ["modules"] and its ["resources"], each when
    the key is there. *)
Record state_json := {
  state_modules : option (list module_json);
  state_resources : option (list resource_json);
}.

(** [TerraformResource(resource, flat_attrs=True)] *)
Definition flat_resource (resource : source_json) : TerraformResource :=
  {| flat_attrs := true; _type := None;
     source_type := json_type resource; source_attributes := json_attributes resource |}.

(** [TerraformResource(instance, resource_type=ty)] *)
Definition typed_resource (ty : string) (instance : source_json) : TerraformResource :=
  {| flat_attrs := false; _type := Some ty;
     source_type := json_type instance; source_attributes := json_attributes instance |}.

(** What a generator does when it is run to its end: the values it yields,
    in order, and the exception that stops it, if one does. *)
Definition generated (A : Type) : Type := list A * option exn.

(** [for module in modules: for resource in module["resources"].values()] *)
Fixpoint module_loop (modules : list module_json) : generated TerraformResource :=
  match modules with
  | [] => ([], None)
  | module :: rest =>
      match module_resources module with
      | None => ([], Some (KeyError "resources"))
      | Some resources =>
          (((flat_resource <$> resources.*2) ++ (module_loop rest).1)%list,
           (module_loop rest).2)
      end
  end.

(** [for resource in resources: for instance in resource["instances"]];
    [resource["type"]] is evaluated for each instance, hence not at all for
    a resource without instances. *)
Fixpoint resource_loop (resources : list resource_json) : generated TerraformResource :=
  match resources with
  | [] => ([], None)
  | resource :: rest =>
      match resource_instances resource with
      | None => ([], Some (KeyError "instances"))
      | Some [] => resource_loop rest
      | Some (instance :: instances) =>
          match resource_type resource with
          | None => ([], Some (KeyError "type"))
          | Some ty =>
              (((typed_resource ty <$> instance :: instances) ++ (resource_loop rest).1)%list,
               (resource_loop rest).2)
          end
      end
  end.

Module TerraformState.

Record t := {
  state : state_json;
  flat_attrs : bool;
}.

Definition __init__ (state_json : state_json) : t :=
  {| state := state_json;
     flat_attrs := match state_modules state_json with Some _ => true | None => false end |}.

Definition resources (self : t) : generated TerraformResource :=
  if flat_attrs self then
    match state_modules (state self) with
    | Some modules => module_loop modules
    | None => ([], Some (KeyError "modules"))
    end
  else
    match state_resources (state self) with
    | Some resources => resource_loop resources
    | None => ([], Some (KeyError "resources"))
    end.

End TerraformState.

(** [_main] from the state document [_execute_shell] returns: the loop
    takes the records as the generator yields them, so an exception of the
    generator comes after the records before it have been processed. *)
Definition _main_from_state (state_json : state_json) : result (gmap string section) :=
  let tfstate := TerraformState.__init__ state_json in
  inventory ← main_loop (TerraformState.resources tfstate).1 AnsibleInventory.__init__;
  match (TerraformState.resources tfstate).2 with
  | Some e => Raise e
  | None => Ok (AnsibleInventory.to_dict inventory)
  end.

(** Two upserts that do not write a common variable of the same host, or of
    the same group. *)
Definition writes_apart (o1 o2 : operation) : Prop :=
  match o1, o2 with
  | UpsertHost h1 _ vs1, UpsertHost h2 _ vs2 =>
      h1 = h2 → default ∅ vs1 ##ₘ default ∅ vs2
  | UpsertGroup g1 _ _ vs1, UpsertGroup g2 _ _ vs2 =>
      g1 = g2 → default ∅ vs1 ##ₘ default ∅ vs2
  | _, _ => True
  end.

(** The same for what two records lead to. *)
Definition records_write_apart (o1 o2 : option operation) : Prop :=
  match o1, o2 with
  | Some o1, Some o2 => writes_apart o1 o2
  | _, _ => True
  end.

(** [old] after [update_groups(groupname, children, hosts, group_vars)]. *)
Definition upserted_group (groupname : string) (children hosts' : option (list string))
    (group_vars : option (gmap string attr_value)) (old : option AnsibleGroup.t)
    : AnsibleGroup.t :=
  match old with
  | Some group => AnsibleGroup.update children hosts' group_vars group
  | None => AnsibleGroup.__init__ groupname children hosts' group_vars
  end.

(** * Properties *)

(** ** Strings and integers *)

Lemma digits_not_blank d :
  Forall (λ c, is_space c = false) (list_ascii_of_string (NilEmpty.string_of_uint d)).
Proof. induction d; simpl; constructor; done. Qed.

Lemma lstrip_id c cs : is_space c = false → lstrip (c :: cs) = c :: cs.
Proof. intros H. simpl. by rewrite H. Qed.

Lemma strip_id cs : Forall (λ c, is_space c = false) cs → strip cs = cs.
Proof.
  intros H. unfold strip.
  assert (Hl : ∀ l, Forall (λ c, is_space c = false) l → lstrip l = l).
  { intros [|c l] Hf; [done|]. apply lstrip_id. by inversion Hf. }
  rewrite (Hl cs H), Hl.
  - apply rev_involutive.
  - by apply List.Forall_rev.
Qed.

Lemma int_digits_uint d acc b :
  d ≠ Nil ∨ b = true →
  int_digits (Z.of_nat acc) b (list_ascii_of_string (NilEmpty.string_of_uint d))
  = Some (Z.of_nat (Nat.of_uint_acc d acc)).
Proof.
  revert acc b.
  induction d as [|d IH|d IH|d IH|d IH|d IH|d IH|d IH|d IH|d IH|d IH];
    intros acc b Hb.
  1: { destruct Hb as [?| ->]; done. }
  all: cbn [NilEmpty.string_of_uint list_ascii_of_string int_digits Nat.of_uint_acc];
    match goal with
    | |- context [digit_of ?c] =>
        let v := eval vm_compute in (digit_of c) in
        change (digit_of c) with v; cbv iota
    end;
    match goal with
    | |- int_digits ?z _ _ = Some (Z.of_nat (Nat.of_uint_acc _ ?n)) =>
        replace z with (Z.of_nat n) by (rewrite Nat.tail_mul_spec; lia)
    end;
    apply IH; by right.
Qed.

Lemma to_uint_nonnil n : Nat.to_uint n ≠ Nil.
Proof.
  rewrite <- (Unsigned.of_to n) at 1. rewrite Unsigned.to_of.
  apply DecimalFacts.unorm_nonnil.
Qed.

(** [int(str(n))] is [n]. *)
Lemma python_int_str_of_nat n : python_int (str_of_nat n) = Some (Z.of_nat n).
Proof.
  unfold python_int, str_of_nat.
  pose proof (to_uint_nonnil n) as Hn.
  pose proof (Unsigned.of_to n) as Hv. unfold Nat.of_uint in Hv.
  destruct (Nat.to_uint n) as [|d|d|d|d|d|d|d|d|d|d] eqn:E; [done|..].
  all: unfold NilZero.string_of_uint; rewrite strip_id by apply digits_not_blank.
  all: rewrite <- Hv.
  all: match goal with
       | |- context [NilEmpty.string_of_uint ?u] =>
           rewrite <- (int_digits_uint u 0 false) by (left; discriminate)
       end.
  all: reflexivity.
Qed.







Lemma append_cons a (s1 s2 : string) : String a s1 ++ s2 = String a (s1 ++ s2).
Proof. reflexivity. Qed.

Lemma strip_prefix_Some p s r : strip_prefix p s = Some r ↔ s = p ++ r.
Proof.
  revert s. induction p as [|a p IH]; intros s.
  - change ("" ++ r) with r. cbn. split; congruence.
  - rewrite append_cons. destruct s as [|b s]; cbn; [split; discriminate|].
    destruct (Ascii.eqb_spec a b) as [->|Hab].
    + rewrite IH. split; congruence.
    + split; [discriminate|]. intros [= -> _]. done.
Qed.

Lemma has_line_feed_app p r :
  has_line_feed (p ++ r) = has_line_feed p || has_line_feed r.
Proof.
  induction p as [|a p IH]; [done|].
  rewrite append_cons. cbn. rewrite IH. by rewrite orb_assoc.
Qed.

Lemma dot_star_id s : has_line_feed s = false → dot_star s = s.
Proof.
  induction s as [|c s IH]; cbn; [done|].
  intros [Hc Hs]%orb_false_iff. rewrite Hc. by rewrite IH.
Qed.

(** ** Reading flattened lists *)

Lemma dict_get_None (d : pydict) k : k ∉ d.*1 → dict_get d k = None.
Proof.
  induction d as [|[k' v] d IH]; cbn; [done|].
  intros Hk. apply not_elem_of_cons in Hk as [Hne Hk].
  destruct (String.eqb_spec k' k); [congruence|]. by apply IH.
Qed.

Lemma read_items_ok attrs key idx vs out :
  Forall2 (λ i v, dict_get attrs (format_index key i) = Some (AStr v)) idx vs →
  read_items attrs key idx out = Ok (out ++ vs)%list.
Proof.
  intros H. revert out.
  induction H as [|i v idx vs Hi _ IH]; intros out; cbn.
  - by rewrite app_nil_r.
  - rewrite Hi, IH. by rewrite <- app_assoc.
Qed.

(** A missing item aborts the loop with the [KeyError] of the subscript. *)
Lemma read_items_missing attrs key idx1 i idx2 vs out :
  Forall2 (λ i v, dict_get attrs (format_index key i) = Some (AStr v)) idx1 vs →
  dict_get attrs (format_index key i) = None →
  read_items attrs key (idx1 ++ i :: idx2)%list out = Raise (KeyError (format_index key i)).
Proof.
  intros H Hi. revert out.
  induction H as [|j v idx vs Hj _ IH]; intros out; cbn.
  - by rewrite Hi.
  - by rewrite Hj, IH.
Qed.

Lemma items_in_order (P : nat → string → Prop) vs start :
  (∀ i v, vs !! i = Some v → P (start + i) v) →
  Forall2 P (seq start (length vs)) vs.
Proof.
  revert start. induction vs as [|v vs IH]; intros start H; cbn; constructor.
  - specialize (H 0 v eq_refl). by rewrite Nat.add_0_r in H.
  - apply IH. intros i w Hi. specialize (H (S i) w Hi).
    by replace (S start + i) with (start + S i) by lia.
Qed.

(** C2: on a pre-0.12 record whose attribute [key.#] is the decimal string
    of [n], with [n] at least 1, [read_list_attr key] returns the [n] values
    stored under [key.0] to [key.(n-1)], in the order of the indices; when
    there is no [key.#], or when [n] is 0, it returns the empty list. *)
Theorem flat_list_read_in_order self attrs key (n : nat) (vs : list string) :
  flat_attrs self = true →
  source_attributes self = Some attrs →
  (dict_get attrs (key ++ ".#") = None → read_list_attr self key = Ok (Some [])) ∧
  (dict_get attrs (key ++ ".#") = Some (AStr (str_of_nat n)) →
     (n = 0 → read_list_attr self key = Ok (Some [])) ∧
     ((1 ≤ n)%nat → length vs = n →
      (∀ i v, vs !! i = Some v → dict_get attrs (format_index key i) = Some (AStr v)) →
      read_list_attr self key = Ok (Some vs))).
Proof.
  intros Hflat Hattrs. unfold read_list_attr, _raw_attributes.
  rewrite Hattrs, Hflat. cbn. split.
  - by intros ->.
  - intros ->. rewrite python_int_str_of_nat. split.
    + by intros ->.
    + intros Hn Hlen Hvs.
      destruct (Z.ltb_spec (Z.of_nat n) 1) as [?|_]; [lia|].
      rewrite Nat2Z.id, <- Hlen.
      rewrite (read_items_ok attrs key _ vs []); [done|].
      by apply (items_in_order _ vs 0).
Qed.

(** Scenario 2 of the specification. *)
Lemma flat_list_read_in_order_witness :
  read_list_attr
    (flat_record "ansible_host"
       [("groups.#", AStr "2"); ("groups.0", AStr "a"); ("groups.1", AStr "b")])
    "groups" = Ok (Some ["a"; "b"]).
Proof.
  refine (proj2 (proj2 (flat_list_read_in_order
            (flat_record "ansible_host"
               [("groups.#", AStr "2"); ("groups.0", AStr "a"); ("groups.1", AStr "b")])
            [("groups.#", AStr "2"); ("groups.0", AStr "a"); ("groups.1", AStr "b")]
            "groups" 2 ["a"; "b"] eq_refl eq_refl) eq_refl)
            _ eq_refl _).
  - lia.
  - intros [|[|i]] v Hv; vm_compute in Hv; inversion Hv; reflexivity.
Defined.

(** An item the length announces and the map lacks: the read raises, it
    does not return a shorter list. *)
Lemma flat_list_missing_item :
  read_list_attr (flat_record "ansible_host" [("groups.#", AStr "2"); ("groups.0", AStr "a")])
    "groups" = Raise (KeyError "groups.1").
Proof. reflexivity. Qed.




(** ** Reading flattened maps *)

(** C4 fails on the code for a sub-key with a line feed: the dot of the
    pattern stops in front of it, so the entry of [vars.a<LF>b] is filed
    under [a], and the sub-key itself has no entry.  The 0.12 path returns
    the same map with its key intact. *)
Theorem flat_map_line_feed_subkey :
  let subkey := "a" ++ String newline "b" in
  read_dict_attr (flat_record "ansible_host" [(key_with_line_feed, AStr "x")]) "vars"
    = Ok (Some {["a" := AStr "x"]})
  ∧ ({["a" := AStr "x"]} : gmap string attr_value) !! subkey = None
  ∧ read_dict_attr
      {| flat_attrs := false; _type := Some "ansible_host"; source_type := None;
         source_attributes := Some [("vars", AMap {[subkey := "x"]})] |} "vars"
    = Ok (Some {[subkey := AStr "x"]}).
Proof.
  cbv zeta. split; [|split].
  - vm_compute. reflexivity.
  - vm_compute. reflexivity.
  - unfold read_dict_attr. cbn. by rewrite map_fmap_singleton.
Qed.

Lemma read_dict_step_fold key (attrs : pydict) sub :
  dict_wf attrs →
  (∀ k, k ∈ attrs.*1 → has_line_feed k = false) →
  ∀ out : gmap string attr_value,
    fold_left (read_dict_step key) attrs out !! sub =
    if String.eqb sub "%" then out !! sub
    else match dict_get attrs ((key ++ ".") ++ sub) with
         | Some v => Some v
         | None => out !! sub
         end.
Proof.
  induction attrs as [|[k v] attrs IH]; intros Hwf Hlf out.
  - cbn. by destruct (String.eqb sub "%").
  - unfold dict_wf in Hwf. rewrite fmap_cons in Hwf. cbn [fst] in Hwf.
    apply NoDup_cons in Hwf as [Hk Hwf]. cbn [fold_left].
    rewrite IH; [|done|intros k' Hk'; apply Hlf; cbn; by right].
    assert (Hlfk : has_line_feed k = false) by (apply Hlf; cbn; by left).
    cbn [dict_get]. unfold read_dict_step, re_match_group1. cbn [fst snd].
    destruct (strip_prefix (key ++ ".") k) as [r|] eqn:Hr; cbn.
    + apply strip_prefix_Some in Hr. subst k.
      rewrite has_line_feed_app in Hlfk. apply orb_false_iff in Hlfk as [_ Hlfr].
      rewrite (dot_star_id r Hlfr).
      destruct (String.eqb_spec sub "%") as [Hsub|Hsub].
      * destruct (String.eqb_spec r "%") as [|Hr]; [done|].
        rewrite lookup_insert_ne; [done|congruence].
      * destruct (String.eqb_spec ((key ++ ".") ++ r) ((key ++ ".") ++ sub)) as [Heq|Hne].
        -- apply (inj _) in Heq. subst r.
           rewrite (dict_get_None attrs _ Hk).
           destruct (String.eqb_spec sub "%"); [done|]. by rewrite lookup_insert_eq.
        -- assert (r ≠ sub) by congruence.
           destruct (String.eqb_spec r "%"); [done|]. by rewrite lookup_insert_ne.
    + destruct (String.eqb_spec k ((key ++ ".") ++ sub)) as [Hk'|Hne]; [|done].
      assert (Hs : strip_prefix (key ++ ".") ((key ++ ".") ++ sub) = Some sub)
        by by apply strip_prefix_Some.
      congruence.
Qed.

(** What C4 says holds when no attribute key holds a line feed: the map read
    for [key] has no entry for the marker [%] and, for every other sub-key,
    the value stored under [key.sub-key]. *)
Lemma flat_map_read_without_line_feed self attrs key sub :
  flat_attrs self = true →
  source_attributes self = Some attrs →
  regex_plain key = true →
  dict_wf attrs →
  (∀ k, k ∈ attrs.*1 → has_line_feed k = false) →
  ∃ out, read_dict_attr self key = Ok (Some out) ∧
    out !! sub = if String.eqb sub "%" then None else dict_get attrs ((key ++ ".") ++ sub).
Proof.
  intros Hflat Hattrs _ Hwf Hlf. unfold read_dict_attr, _raw_attributes.
  rewrite Hattrs, Hflat. cbn. eexists; split; [done|].
  rewrite read_dict_step_fold by done. rewrite lookup_empty.
  destruct (String.eqb sub "%"); [done|]. by destruct (dict_get _ _).
Qed.

(** ** Sorting a set *)

Lemma sorted_elem_of (X : gset string) x : x ∈ sorted X ↔ x ∈ X.
Proof. unfold sorted. rewrite merge_sort_Permutation. apply elem_of_elements. Qed.

Lemma sorted_NoDup (X : gset string) : NoDup (sorted X).
Proof. unfold sorted. rewrite merge_sort_Permutation. apply NoDup_elements. Qed.

Lemma sorted_StronglySorted (X : gset string) : StronglySorted String.le (sorted X).
Proof. apply StronglySorted_merge_sort; apply _. Qed.

(** In whatever order the elements of the set are enumerated, sorting
    gives the same list. *)
Lemma sorted_any_order (X : gset string) (l : list string) :
  NoDup l → (∀ x, x ∈ l ↔ x ∈ X) → merge_sort String.le l = sorted X.
Proof.
  intros Hnd Hl.
  apply (StronglySorted_unique String.le).
  - apply StronglySorted_merge_sort; apply _.
  - apply sorted_StronglySorted.
  - unfold sorted. rewrite !merge_sort_Permutation.
    apply NoDup_Permutation; [done|apply NoDup_elements|].
    intros x. rewrite Hl. by rewrite elem_of_elements.
Qed.

(** ** Hosts and groups *)

Lemma inventory_eq (a b : AnsibleInventory.t) :
  AnsibleInventory.groups a = AnsibleInventory.groups b →
  AnsibleInventory.hosts a = AnsibleInventory.hosts b →
  a = b.
Proof. destruct a, b; cbn; by intros -> ->. Qed.

Lemma enrol_hosts hostname groupname old :
  AnsibleGroup.hosts (enrol hostname groupname old) =
  from_option AnsibleGroup.hosts ∅ old ∪ {[hostname]}.
Proof. destruct old; cbn; set_solver. Qed.

Lemma enrol_children hostname groupname old :
  AnsibleGroup.children (enrol hostname groupname old) =
  from_option AnsibleGroup.children ∅ old.
Proof. by destruct old. Qed.

Lemma enrol_group_vars hostname groupname old :
  AnsibleGroup.group_vars (enrol hostname groupname old) =
  from_option AnsibleGroup.group_vars ∅ old.
Proof. by destruct old. Qed.

Lemma enrol_twice hostname groupname old :
  enrol hostname groupname (Some (enrol hostname groupname old)) =
  enrol hostname groupname old.
Proof.
  destruct old as [[n hs cs vs]|]; cbn;
    unfold AnsibleGroup.__init__, AnsibleGroup.update; cbn; f_equal; set_solver.
Qed.

Lemma enrol_loop hostname (S : gset string) (self : AnsibleInventory.t) :
  AnsibleInventory.hosts (enrol_all hostname S self) = AnsibleInventory.hosts self ∧
  ∀ g, AnsibleInventory.groups (enrol_all hostname S self) !! g =
       if decide (g ∈ S) then Some (enrol hostname g (AnsibleInventory.groups self !! g))
       else AnsibleInventory.groups self !! g.
Proof.
  unfold enrol_all.
  refine (set_fold_ind_L (λ acc (X : gset string),
    AnsibleInventory.hosts acc = AnsibleInventory.hosts self ∧
    ∀ g, AnsibleInventory.groups acc !! g =
         if decide (g ∈ X) then Some (enrol hostname g (AnsibleInventory.groups self !! g))
         else AnsibleInventory.groups self !! g) _ self _ _ S).
  - split; [done|]. intros g. by rewrite decide_False by set_solver.
  - intros x X acc Hx [Hh Hg]. split; [done|]. intros g. cbn.
    destruct (decide (x = g)) as [->|Hne].
    + rewrite lookup_insert_eq, decide_True by set_solver.
      rewrite Hg, decide_False by done. done.
    + rewrite lookup_insert_ne by done. rewrite Hg.
      destruct (decide (g ∈ X)).
      * by rewrite decide_True by set_solver.
      * by rewrite decide_False by set_solver.
Qed.

Lemma update_hosts_unfold hostname groups' host_vars self :
  AnsibleInventory.update_hosts hostname groups' host_vars self =
  enrol_all hostname (AnsibleHost.groups (upserted_host hostname groups' host_vars self))
    {| AnsibleInventory.groups := AnsibleInventory.groups self;
       AnsibleInventory.hosts :=
         <[hostname := upserted_host hostname groups' host_vars self]>
           (AnsibleInventory.hosts self) |}.
Proof.
  unfold AnsibleInventory.update_hosts. fold (upserted_host hostname groups' host_vars self).
  case_decide as He; [|done].
  rewrite He. unfold enrol_all. by rewrite set_fold_empty.
Qed.

Lemma update_hosts_hosts hostname groups' host_vars self :
  AnsibleInventory.hosts (AnsibleInventory.update_hosts hostname groups' host_vars self) =
  <[hostname := upserted_host hostname groups' host_vars self]> (AnsibleInventory.hosts self).
Proof. rewrite update_hosts_unfold. by rewrite (proj1 (enrol_loop _ _ _)). Qed.

Lemma update_hosts_groups hostname groups' host_vars self g :
  AnsibleInventory.groups (AnsibleInventory.update_hosts hostname groups' host_vars self) !! g =
  if decide (g ∈ AnsibleHost.groups (upserted_host hostname groups' host_vars self))
  then Some (enrol hostname g (AnsibleInventory.groups self !! g))
  else AnsibleInventory.groups self !! g.
Proof. rewrite update_hosts_unfold. by rewrite (proj2 (enrol_loop _ _ _)). Qed.
Lemma host_update_twice groups' host_vars host :
  AnsibleHost.update groups' host_vars (AnsibleHost.update groups' host_vars host) =
  AnsibleHost.update groups' host_vars host.
Proof.
  destruct host as [n gs vs]. unfold AnsibleHost.update.
  destruct (truthy_dict host_vars), (truthy_list groups'); cbn; f_equal;
    try set_solver; by rewrite (assoc (∪)), (idemp (∪)).
Qed.

(** [update_hosts] with the same arguments a second time changes nothing. *)
Lemma update_hosts_twice hostname groups' host_vars self :
  AnsibleInventory.update_hosts hostname groups' host_vars
    (AnsibleInventory.update_hosts hostname groups' host_vars self) =
  AnsibleInventory.update_hosts hostname groups' host_vars self.
Proof.
  set (self1 := AnsibleInventory.update_hosts hostname groups' host_vars self).
  assert (Hhost : upserted_host hostname groups' host_vars self1 =
                  upserted_host hostname groups' host_vars self).
  { unfold upserted_host at 1. unfold self1. rewrite update_hosts_hosts, lookup_insert_eq.
    unfold upserted_host. destruct (AnsibleInventory.hosts self !! hostname).
    - apply host_update_twice.
    - unfold AnsibleHost.__init__. apply host_update_twice. }
  apply inventory_eq.
  - apply map_eq. intros g. rewrite update_hosts_groups, Hhost.
    unfold self1. rewrite update_hosts_groups.
    case_decide; [|done]. by rewrite enrol_twice.
  - rewrite update_hosts_hosts, Hhost. unfold self1. rewrite update_hosts_hosts.
    apply insert_insert_eq.
Qed.

(** ** The document *)

Lemma map_fold_insert_fmap {A B} (f : A → B) (m : gmap string A) (b : gmap string B) :
  map_fold (λ k v acc, <[k := f v]> acc) b m = (f <$> m) ∪ b.
Proof.
  apply (map_fold_weak_ind (λ acc m, acc = (f <$> m) ∪ b)).
  - by rewrite fmap_empty, (left_id_L ∅ (∪)).
  - intros k v m' acc Hk ->. by rewrite fmap_insert, insert_union_l.
Qed.

Lemma hostvars_lookup self h :
  AnsibleInventory.hostvars self !! h =
  AnsibleHost.host_vars <$> AnsibleInventory.hosts self !! h.
Proof.
  unfold AnsibleInventory.hostvars, AnsibleInventory.tidy_hosts.
  rewrite (map_fold_insert_fmap AnsibleHost.get_vars), (right_id_L ∅ (∪)).
  rewrite !lookup_fmap. by destruct (AnsibleInventory.hosts self !! h).
Qed.

Lemma to_dict_lookup self g :
  AnsibleInventory.to_dict self !! g =
  match AnsibleInventory.groups self !! g with
  | Some group => Some (GroupSection (AnsibleGroup.to_dict (AnsibleGroup.tidy group)))
  | None =>
      if decide (g = "_meta") then Some (MetaSection (AnsibleInventory.hostvars self))
      else None
  end.
Proof.
  unfold AnsibleInventory.to_dict, AnsibleInventory.tidy_groups.
  rewrite (map_fold_insert_fmap (λ group, GroupSection (AnsibleGroup.to_dict group))).
  rewrite lookup_union, !lookup_fmap.
  destruct (AnsibleInventory.groups self !! g) as [group|]; cbn.
  - by destruct (_ !! g).
  - case_decide as Hg.
    + subst g. by rewrite lookup_singleton_eq.
    + by rewrite lookup_singleton_ne.
Qed.

(** ** Runs of upserts *)

Lemma update_groups_hosts groupname children hosts' group_vars self :
  AnsibleInventory.hosts
    (AnsibleInventory.update_groups groupname children hosts' group_vars self) =
  AnsibleInventory.hosts self.
Proof. reflexivity. Qed.

Lemma run_snoc ops o self : run (ops ++ [o])%list self = apply_operation (run ops self) o.
Proof. unfold run. by rewrite fold_left_app. Qed.

Lemma run_app ops1 ops2 self : run (ops1 ++ ops2)%list self = run ops2 (run ops1 self).
Proof. unfold run. by rewrite fold_left_app. Qed.

Lemma host_update_groups_mono groups' host_vars host :
  AnsibleHost.groups host ⊆ AnsibleHost.groups (AnsibleHost.update groups' host_vars host).
Proof.
  destruct host as [n gs vs]. unfold AnsibleHost.update.
  destruct (truthy_dict host_vars), (truthy_list groups'); cbn; set_solver.
Qed.

Lemma upserted_host_all hostname groups' host_vars self :
  every_host_in_all self →
  "all" ∈ AnsibleHost.groups (upserted_host hostname groups' host_vars self).
Proof.
  intros Hall. unfold upserted_host.
  destruct (AnsibleInventory.hosts self !! hostname) as [host|] eqn:Hh.
  - apply host_update_groups_mono. by eapply Hall.
  - unfold AnsibleHost.__init__. apply host_update_groups_mono. cbn. set_solver.
Qed.

Lemma apply_operation_every_host_in_all self o :
  every_host_in_all self → every_host_in_all (apply_operation self o).
Proof.
  intros Hall. destruct o as [hostname gs vs|groupname cs hs vs]; cbn.
  - intros h host. rewrite update_hosts_hosts.
    destruct (decide (hostname = h)) as [->|Hne].
    + rewrite lookup_insert_eq. intros [= <-]. by apply upserted_host_all.
    + rewrite lookup_insert_ne by done. apply Hall.
  - intros h host. rewrite update_groups_hosts. apply Hall.
Qed.

Lemma group_update_hosts_mono children hosts' group_vars group :
  AnsibleGroup.hosts group ⊆
  AnsibleGroup.hosts (AnsibleGroup.update children hosts' group_vars group).
Proof. destruct group. cbn. destruct (truthy_list hosts'); set_solver. Qed.

Lemma group_update_children_mono children hosts' group_vars group :
  AnsibleGroup.children group ⊆
  AnsibleGroup.children (AnsibleGroup.update children hosts' group_vars group).
Proof. destruct group. cbn. destruct (truthy_list children); set_solver. Qed.

Lemma truthy_list_elem_of (l : option (list string)) x :
  x ∈ default [] l → truthy_list l = true.
Proof. destruct l as [[|y l]|]; cbn; [by intros ?%elem_of_nil|done|by intros ?%elem_of_nil]. Qed.

(** What [update_groups] leaves under its group name. *)
Lemma update_groups_lookup groupname children hosts' group_vars self :
  ∃ group,
    AnsibleInventory.groups
      (AnsibleInventory.update_groups groupname children hosts' group_vars self)
      !! groupname = Some group
    ∧ (∀ x, x ∈ default [] hosts' → x ∈ AnsibleGroup.hosts group)
    ∧ (∀ x, x ∈ default [] children → x ∈ AnsibleGroup.children group)
    ∧ (∀ k v, truthy_dict group_vars = true → default ∅ group_vars !! k = Some v →
              AnsibleGroup.group_vars group !! k = Some v).
Proof.
  unfold AnsibleInventory.update_groups. cbn. rewrite lookup_insert_eq.
  eexists; split; [done|].
  destruct (AnsibleInventory.groups self !! groupname) as [[n hs cs vs]|];
    unfold AnsibleGroup.__init__, AnsibleGroup.update; cbn.
  all: split; [|split].
  all: try (intros x Hx; rewrite (truthy_list_elem_of _ x Hx);
            destruct hosts', children; cbn in *; set_solver).
  all: intros k v -> Hk; by apply lookup_union_Some_l.
Qed.

Lemma apply_operation_grows self o : grows self (apply_operation self o).
Proof.
  intros g group Hg. destruct o as [hostname gs vs|groupname cs hs vs]; cbn [apply_operation].
  - rewrite update_hosts_groups, Hg. case_decide.
    + eexists; split; [done|]. unfold enrol. split.
      * apply group_update_hosts_mono.
      * apply group_update_children_mono.
    + by eexists.
  - unfold AnsibleInventory.update_groups. cbn [AnsibleInventory.groups].
    destruct (decide (groupname = g)) as [->|Hne].
    + rewrite lookup_insert_eq, Hg. eexists; split; [done|]. split.
      * apply group_update_hosts_mono.
      * apply group_update_children_mono.
    + rewrite lookup_insert_ne by done. by eexists.
Qed.

Lemma grows_trans a b c : grows a b → grows b c → grows a c.
Proof.
  intros Hab Hbc g group Hg.
  destruct (Hab g group Hg) as (group1 & Hg1 & Hh1 & Hc1).
  destruct (Hbc g group1 Hg1) as (group2 & Hg2 & Hh2 & Hc2).
  exists group2. split; [done|]. split; set_solver.
Qed.

Lemma run_grows ops self : grows self (run ops self).
Proof.
  induction ops as [|o ops IH] using rev_ind.
  - intros g group Hg. by exists group.
  - rewrite run_snoc. eapply grows_trans; [done|apply apply_operation_grows].
Qed.

Lemma apply_operation_memberships_registered self o :
  memberships_registered self → memberships_registered (apply_operation self o).
Proof.
  intros Hreg h host g Hh Hg.
  destruct o as [hostname gs vs|groupname cs hs vs]; cbn in *.
  - rewrite update_hosts_hosts in Hh. rewrite update_hosts_groups.
    destruct (decide (hostname = h)) as [->|Hne].
    + rewrite lookup_insert_eq in Hh. injection Hh as <-.
      rewrite decide_True by done. eexists; split; [done|].
      rewrite enrol_hosts. set_solver.
    + rewrite lookup_insert_ne in Hh by done.
      destruct (Hreg h host g Hh Hg) as (group & Hgroup & Hmem).
      rewrite Hgroup. case_decide.
      * eexists; split; [done|]. rewrite enrol_hosts. cbn. set_solver.
      * by eexists.
  - destruct (Hreg h host g Hh Hg) as (group & Hgroup & Hmem).
    destruct (apply_operation_grows self (UpsertGroup groupname cs hs vs) g group Hgroup)
      as (group' & Hgroup' & Hsub & _).
    exists group'. split; [done|]. set_solver.
Qed.

Lemma init_every_host_in_all : every_host_in_all AnsibleInventory.__init__.
Proof. intros h host Hh. cbn in Hh. by rewrite lookup_empty in Hh. Qed.

Lemma init_memberships_registered : memberships_registered AnsibleInventory.__init__.
Proof. intros h host g Hh. cbn in Hh. by rewrite lookup_empty in Hh. Qed.

Lemma run_every_host_in_all ops self :
  every_host_in_all self → every_host_in_all (run ops self).
Proof.
  intros H. induction ops as [|o ops IH] using rev_ind; [done|].
  rewrite run_snoc. by apply apply_operation_every_host_in_all.
Qed.

Lemma run_memberships_registered ops self :
  memberships_registered self → memberships_registered (run ops self).
Proof.
  intros H. induction ops as [|o ops IH] using rev_ind; [done|].
  rewrite run_snoc. by apply apply_operation_memberships_registered.
Qed.

(** C10: after any sequence of [update_hosts] and [update_groups] from the
    empty inventory, every group named in the group set of a host exists
    and has that host among its hosts. *)
Theorem memberships_registered_always (ops : list operation) :
  memberships_registered (run ops AnsibleInventory.__init__).
Proof. apply run_memberships_registered, init_memberships_registered. Qed.

(** The hosts of the inventory are those [update_hosts] was called for. *)
Lemma run_hosts_is_Some ops self h :
  is_Some (AnsibleInventory.hosts (run ops self) !! h) ↔
  is_Some (AnsibleInventory.hosts self !! h) ∨
  ∃ gs vs, UpsertHost h gs vs ∈ ops.
Proof.
  induction ops as [|o ops IH] using rev_ind.
  - cbn. split; [by left|]. intros [?|(gs & vs & H)]; [done|]. by apply elem_of_nil in H.
  - rewrite run_snoc.
    destruct o as [hostname gs vs|groupname cs hs vs]; cbn [apply_operation].
    + rewrite update_hosts_hosts. destruct (decide (hostname = h)) as [->|Hne].
      * rewrite lookup_insert_eq. split; [|by eexists].
        intros _. right. exists gs, vs. set_solver.
      * rewrite lookup_insert_ne by done. rewrite IH. split.
        -- intros [?|(gs' & vs' & H)]; [by left|]. right. exists gs', vs'. set_solver.
        -- intros [?|(gs' & vs' & H)]; [by left|]. right. exists gs', vs'.
           apply elem_of_app in H as [H|H]; [done|].
           apply list_elem_of_singleton in H. congruence.
    + rewrite update_groups_hosts, IH. split.
      * intros [?|(gs' & vs' & H)]; [by left|]. right. exists gs', vs'. set_solver.
      * intros [?|(gs' & vs' & H)]; [by left|]. right. exists gs', vs'.
        apply elem_of_app in H as [H|H]; [done|].
        apply list_elem_of_singleton in H. congruence.
Qed.

(** Membership in a group as the document shows it. *)
Lemma to_dict_hosts self g group h :
  AnsibleInventory.groups self !! g = Some group →
  h ∈ AnsibleGroup.hosts group →
  ∃ gd, AnsibleInventory.to_dict self !! g = Some (GroupSection gd) ∧ h ∈ dict_hosts gd.
Proof.
  intros Hg Hh. rewrite to_dict_lookup, Hg. eexists; split; [done|].
  cbn. by apply sorted_elem_of.
Qed.

Lemma to_dict_children self g group c :
  AnsibleInventory.groups self !! g = Some group →
  c ∈ AnsibleGroup.children group →
  ∃ gd, AnsibleInventory.to_dict self !! g = Some (GroupSection gd) ∧ c ∈ dict_children gd.
Proof.
  intros Hg Hc. rewrite to_dict_lookup, Hg. eexists; split; [done|].
  cbn. by apply sorted_elem_of.
Qed.

(** A host upserted in a run from the empty inventory is listed in the
    group [all] of the document. *)
Lemma upserted_host_in_all ops h gs vs :
  UpsertHost h gs vs ∈ ops →
  ∃ gd, AnsibleInventory.to_dict (run ops AnsibleInventory.__init__) !! "all"
          = Some (GroupSection gd) ∧ h ∈ dict_hosts gd.
Proof.
  intros Hop.
  assert (Hsome : is_Some (AnsibleInventory.hosts (run ops AnsibleInventory.__init__) !! h)).
  { apply run_hosts_is_Some. right. by exists gs, vs. }
  destruct Hsome as [host Hhost].
  pose proof (run_every_host_in_all ops _ init_every_host_in_all h host Hhost) as Hall.
  destruct (run_memberships_registered ops _ init_memberships_registered
              h host "all" Hhost Hall) as (group & Hg & Hh).
  by eapply to_dict_hosts.
Qed.

(** ** From records to upserts *)

Lemma main_step_operation inventory resource :
  main_step inventory resource =
  o ← operation_of resource;
  Ok (from_option (apply_operation inventory) inventory o).
Proof.
  unfold main_step, operation_of, AnsibleInventory.add_resource.
  destruct (is_ansible resource) as [[]|e]; cbn; [|done..].
  destruct (type resource) as [ty|e]; cbn; [|done].
  unfold AnsibleInventory.add_host_resource, AnsibleInventory.add_host_var_resource,
    AnsibleInventory.add_group_resource, AnsibleInventory.add_group_var_resource.
  repeat match goal with
         | |- context [if ?b then _ else _] => destruct b
         end; try done.
  all: repeat match goal with
         | |- context [mbind _ ?m] =>
             lazymatch m with
             | context [mbind] => fail
             | _ => destruct m; cbn; try done
             end
         end.
Qed.

Lemma main_loop_run resources inventory inventory' :
  main_loop resources inventory = Ok inventory' →
  ∃ ops, Forall2 (λ r o, operation_of r = Ok o) resources ops ∧
         inventory' = run (omap id ops) inventory.
Proof.
  revert inventory. induction resources as [|r rs IH]; intros inventory; cbn.
  - intros [= <-]. exists []. split; [constructor|done].
  - rewrite main_step_operation.
    destruct (operation_of r) as [o|e] eqn:Ho; cbn; [|done].
    intros Hrest. destruct (IH _ Hrest) as (ops & Hops & ->).
    exists (o :: ops). split; [by constructor|].
    by destruct o.
Qed.

Lemma declares_host_operation resource hostname o :
  declares_host resource hostname →
  operation_of resource = Ok o →
  ∃ gs vs, o = Some (UpsertHost hostname gs vs).
Proof.
  intros [Hty Hname]. unfold operation_of, is_ansible.
  destruct Hty as [Hty|Hty]; rewrite Hty, Hname; cbn.
  - destruct (read_list_attr resource "groups") as [gs|]; cbn; [|done].
    destruct (read_dict_attr resource "vars") as [vs|]; cbn; [|done].
    intros [= <-]. by eexists _, _.
  - destruct (read_attr resource "key") as [k|]; cbn; [|done].
    destruct (read_attr resource "value") as [v|]; cbn; [|done].
    destruct (AnsibleInventory.as_str "key" k) as [k'|]; cbn; [|done].
    intros [= <-]. by eexists _, _.
Qed.

(** C1: when [_main] produces its document, every host some [ansible_host]
    or [ansible_host_var] record names is listed under [hosts] of the group
    [all] of that document, whatever groups the records assign. *)
Theorem declared_host_in_all resources resource hostname doc :
  _main resources = Ok doc →
  resource ∈ resources →
  declares_host resource hostname →
  ∃ gd, doc !! "all" = Some (GroupSection gd) ∧ hostname ∈ dict_hosts gd.
Proof.
  unfold _main. intros Hmain Hin Hdecl.
  destruct (main_loop resources AnsibleInventory.__init__) as [inventory|] eqn:Hloop;
    cbn in Hmain; [|done].
  injection Hmain as <-.
  destruct (main_loop_run _ _ _ Hloop) as (ops & Hops & ->).
  apply list_elem_of_lookup in Hin as [i Hi].
  destruct (Forall2_lookup_l _ _ _ _ _ Hops Hi) as (o & Ho & Hop).
  destruct (declares_host_operation _ _ _ Hdecl Hop) as (gs & vs & ->).
  apply (upserted_host_in_all _ hostname gs vs).
  apply list_elem_of_omap. exists (Some (UpsertHost hostname gs vs)).
  split; [|done]. by eapply list_elem_of_lookup_2.
Qed.

(** Scenario 1 of the specification. *)
Lemma declared_host_in_all_witness :
  ∃ gd,
    AnsibleInventory.to_dict
      (AnsibleInventory.update_hosts "web1" (Some ["webservers"])
         (Some {["role" := AStr "frontend"]}) AnsibleInventory.__init__) !! "all"
      = Some (GroupSection gd)
    ∧ "web1" ∈ dict_hosts gd.
Proof.
  apply (declared_host_in_all
    [nested_record "ansible_host"
       [("inventory_hostname", AStr "web1"); ("groups", AList ["webservers"]);
        ("vars", AMap {["role" := "frontend"]})]]
    (nested_record "ansible_host"
       [("inventory_hostname", AStr "web1"); ("groups", AList ["webservers"]);
        ("vars", AMap {["role" := "frontend"]})])
    "web1").
  - unfold _main. cbn. by rewrite map_fmap_singleton.
  - apply list_elem_of_singleton. reflexivity.
  - split; [by left|reflexivity].
Defined.

(** ** Variables: the later write stays *)

Lemma truthy_dict_singleton k (v : attr_value) : truthy_dict (Some {[k := v]}) = true.
Proof.
  unfold truthy_dict. case_decide as He; [|done].
  by apply map_non_empty_singleton in He.
Qed.

Lemma host_update_var gs k v host :
  AnsibleHost.host_vars (AnsibleHost.update gs (Some {[k := v]}) host) !! k = Some v.
Proof.
  destruct host as [n hs vs]. unfold AnsibleHost.update. rewrite truthy_dict_singleton.
  destruct (truthy_list gs); cbn; apply lookup_union_Some_l, lookup_singleton_eq.
Qed.

Lemma upserted_host_var h gs k v self :
  AnsibleHost.host_vars (upserted_host h gs (Some {[k := v]}) self) !! k = Some v.
Proof.
  unfold upserted_host, AnsibleHost.__init__.
  destruct (AnsibleInventory.hosts self !! h); apply host_update_var.
Qed.

Lemma group_update_var cs hs k v group :
  AnsibleGroup.group_vars (AnsibleGroup.update cs hs (Some {[k := v]}) group) !! k = Some v.
Proof.
  destruct group as [n hs' cs' vs]. unfold AnsibleGroup.update.
  cbn [AnsibleGroup.group_vars]. rewrite truthy_dict_singleton.
  apply lookup_union_Some_l, lookup_singleton_eq.
Qed.

Lemma host_var_decl_step inventory resource hostname key value :
  host_var_decl resource hostname key value →
  main_step inventory resource =
  Ok (AnsibleInventory.update_hosts hostname None (Some {[key := value]}) inventory).
Proof.
  intros (Hty & Hname & Hkey & Hvalue).
  unfold main_step, is_ansible, AnsibleInventory.add_resource. rewrite Hty. cbn.
  unfold AnsibleInventory.add_host_var_resource. by rewrite Hname, Hkey, Hvalue.
Qed.

Lemma group_var_decl_step inventory resource groupname key value :
  group_var_decl resource groupname key value →
  main_step inventory resource =
  Ok (AnsibleInventory.update_groups groupname None None (Some {[key := value]}) inventory).
Proof.
  intros (Hty & Hname & Hkey & Hvalue).
  unfold main_step, is_ansible, AnsibleInventory.add_resource. rewrite Hty. cbn.
  unfold AnsibleInventory.add_group_var_resource. by rewrite Hname, Hkey, Hvalue.
Qed.

Lemma main_loop_app resources1 resources2 inventory :
  main_loop (resources1 ++ resources2)%list inventory =
  main_loop resources1 inventory ≫= main_loop resources2.
Proof.
  revert inventory. induction resources1 as [|r rs IH]; intros inventory; cbn; [done|].
  destruct (main_step inventory r); cbn; [apply IH|done].
Qed.

Lemma host_update_var_frame gs vs key host :
  default ∅ vs !! key = None →
  AnsibleHost.host_vars (AnsibleHost.update gs vs host) !! key =
  AnsibleHost.host_vars host !! key.
Proof.
  intros Hkey. destruct host as [n hs hv]. unfold AnsibleHost.update.
  destruct (truthy_dict vs), (truthy_list gs); cbn; try done.
  all: by rewrite lookup_union_r.
Qed.

Lemma group_update_var_frame cs hs vs key group :
  default ∅ vs !! key = None →
  AnsibleGroup.group_vars (AnsibleGroup.update cs hs vs group) !! key =
  AnsibleGroup.group_vars group !! key.
Proof.
  intros Hkey. destruct group as [n hs' cs' gv]. unfold AnsibleGroup.update.
  cbn [AnsibleGroup.group_vars]. destruct (truthy_dict vs); [|done].
  by rewrite lookup_union_r.
Qed.

(** An upsert that does not write the variable leaves its value. *)
Lemma apply_operation_host_var_frame self o name key v :
  ¬ sets_host_var o name key →
  host_var_is self name key v → host_var_is (apply_operation self o) name key v.
Proof.
  intros Hnot (host & Hhost & Hv).
  destruct o as [hostname gs vs|groupname cs hs vs]; cbn [apply_operation].
  - unfold host_var_is. rewrite update_hosts_hosts.
    destruct (decide (hostname = name)) as [->|Hne].
    + rewrite lookup_insert_eq. eexists; split; [done|].
      unfold upserted_host. rewrite Hhost, host_update_var_frame; [done|].
      apply eq_None_not_Some. intros Hsome. apply Hnot. by split.
    + rewrite lookup_insert_ne by done. by exists host.
  - by exists host.
Qed.

Lemma apply_operation_group_var_frame self o name key v :
  ¬ sets_group_var o name key →
  group_var_is self name key v → group_var_is (apply_operation self o) name key v.
Proof.
  intros Hnot (group & Hgroup & Hv).
  destruct o as [hostname gs vs|groupname cs hs vs]; cbn [apply_operation].
  - unfold group_var_is. rewrite update_hosts_groups, Hgroup. case_decide.
    + eexists; split; [done|]. by rewrite enrol_group_vars.
    + by exists group.
  - unfold group_var_is, AnsibleInventory.update_groups. cbn [AnsibleInventory.groups].
    destruct (decide (groupname = name)) as [->|Hne].
    + rewrite lookup_insert_eq, Hgroup. eexists; split; [done|].
      rewrite group_update_var_frame; [done|].
      apply eq_None_not_Some. intros Hsome. apply Hnot. by split.
    + rewrite lookup_insert_ne by done. by exists group.
Qed.

(** Records that do not write the variable leave its value. *)
Lemma main_loop_frame (sets : operation → Prop) (holds : AnsibleInventory.t → Prop) resources :
  (∀ self o, ¬ sets o → holds self → holds (apply_operation self o)) →
  Forall (λ r, ¬ record_sets sets r) resources →
  ∀ inventory final,
    main_loop resources inventory = Ok final → holds inventory → holds final.
Proof.
  intros Hframe Hnone. induction Hnone as [|r rs Hr _ IH]; intros inventory final; cbn.
  - by intros [= <-].
  - rewrite main_step_operation.
    destruct (operation_of r) as [[o|]|] eqn:Ho; cbn; [| |done].
    + intros Hrest Hholds. apply (IH _ _ Hrest). apply Hframe; [|done].
      intros Hsets. apply Hr. by exists o.
    + apply IH.
Qed.

Lemma update_hosts_host_var h gs key v self :
  host_var_is (AnsibleInventory.update_hosts h gs (Some {[key := v]}) self) h key v.
Proof.
  unfold host_var_is. rewrite update_hosts_hosts, lookup_insert_eq.
  eexists; split; [done|]. apply upserted_host_var.
Qed.

Lemma update_groups_group_var g cs hs key v self :
  group_var_is (AnsibleInventory.update_groups g cs hs (Some {[key := v]}) self) g key v.
Proof.
  unfold group_var_is, AnsibleInventory.update_groups. cbn [AnsibleInventory.groups].
  rewrite lookup_insert_eq. eexists; split; [done|].
  destruct (AnsibleInventory.groups self !! g);
    unfold AnsibleGroup.__init__; apply group_update_var.
Qed.

(** X24: two [ansible_host_var] records, or two [ansible_group_var]
    records, for the same key of the same host or group never raise and,
    when they are processed in this order among other records, none of
    which writes that key of that host or group after the second, the
    [hostvars] the first loop of [to_dict] builds for the host, and the
    [vars] of the group in the document, give the key the value of the
    second.  The [hostvars] sit under [_meta] of the document when no group
    bears that name. *)
Theorem later_variable_wins inventory first second name key v1 v2 :
  (host_var_decl first name key v1 →
   host_var_decl second name key v2 →
   (∃ final, main_loop [first; second] inventory = Ok final) ∧
   ∀ between after final,
     main_loop (first :: between ++ second :: after) inventory = Ok final →
     Forall (λ r, ¬ record_sets (λ o, sets_host_var o name key) r) after →
     ∃ vars, AnsibleInventory.hostvars final !! name = Some vars ∧
       vars !! key = Some v2 ∧
       (AnsibleInventory.groups final !! "_meta" = None →
        AnsibleInventory.to_dict final !! "_meta" =
        Some (MetaSection (AnsibleInventory.hostvars final)))) ∧
  (group_var_decl first name key v1 →
   group_var_decl second name key v2 →
   (∃ final, main_loop [first; second] inventory = Ok final) ∧
   ∀ between after final,
     main_loop (first :: between ++ second :: after) inventory = Ok final →
     Forall (λ r, ¬ record_sets (λ o, sets_group_var o name key) r) after →
     ∃ gd, AnsibleInventory.to_dict final !! name = Some (GroupSection gd) ∧
       dict_vars gd !! key = Some v2).
Proof.
  split; intros Hfirst Hsecond.
  all: try pose proof (λ inv, host_var_decl_step inv _ _ _ _ Hfirst) as E1.
  all: try pose proof (λ inv, host_var_decl_step inv _ _ _ _ Hsecond) as E2.
  all: try pose proof (λ inv, group_var_decl_step inv _ _ _ _ Hfirst) as E1.
  all: try pose proof (λ inv, group_var_decl_step inv _ _ _ _ Hsecond) as E2.
  all: (split; [cbn|intros between after final]).
  - rewrite E1. cbn.
    rewrite E2. cbn. by eexists.
  - cbn [main_loop]. rewrite E1. cbn. rewrite main_loop_app.
    match goal with
    | |- context [main_loop between ?i] =>
        destruct (main_loop between i) as [inventory2|]; cbn; [|done]
    end.
    rewrite E2. cbn.
    intros Hafter Hnone.
    pose proof (main_loop_frame (λ o, sets_host_var o name key)
                  (λ self, host_var_is self name key v2) after
                  (λ self o, apply_operation_host_var_frame self o name key v2)
                  Hnone _ _ Hafter) as Hframe.
    destruct (Hframe (update_hosts_host_var _ _ _ _ _)) as (host & Hhost & Hv).
    exists (AnsibleHost.host_vars host). rewrite hostvars_lookup, Hhost.
    split; [done|]. split; [done|].
    intros Hmeta. rewrite to_dict_lookup, Hmeta. by rewrite decide_True.
  - rewrite E1. cbn.
    rewrite E2. cbn. by eexists.
  - cbn [main_loop]. rewrite E1. cbn. rewrite main_loop_app.
    match goal with
    | |- context [main_loop between ?i] =>
        destruct (main_loop between i) as [inventory2|]; cbn; [|done]
    end.
    rewrite E2. cbn.
    intros Hafter Hnone.
    pose proof (main_loop_frame (λ o, sets_group_var o name key)
                  (λ self, group_var_is self name key v2) after
                  (λ self o, apply_operation_group_var_frame self o name key v2)
                  Hnone _ _ Hafter) as Hframe.
    destruct (Hframe (update_groups_group_var _ _ _ _ _ _)) as (group & Hgroup & Hv).
    rewrite to_dict_lookup, Hgroup. by eexists.
Qed.

Lemma later_variable_wins_witness :
  (∃ final vars,
     main_loop
       [nested_record "ansible_host_var"
          [("inventory_hostname", AStr "web1"); ("key", AStr "role");
           ("value", AStr "frontend")];
        nested_record "ansible_group" [("inventory_group_name", AStr "db")];
        nested_record "ansible_host_var"
          [("inventory_hostname", AStr "web1"); ("key", AStr "role");
           ("value", AStr "backend")];
        nested_record "ansible_host"
          [("inventory_hostname", AStr "web1"); ("groups", AList ["db"])]]
       AnsibleInventory.__init__ = Ok final
     ∧ AnsibleInventory.hostvars final !! "web1" = Some vars
     ∧ vars !! "role" = Some (AStr "backend")) ∧
  (∃ final gd,
     main_loop
       [nested_record "ansible_group_var"
          [("inventory_group_name", AStr "db"); ("key", AStr "port");
           ("value", AStr "5432")];
        nested_record "ansible_group_var"
          [("inventory_group_name", AStr "db"); ("key", AStr "port");
           ("value", AStr "5433")];
        nested_record "ansible_host"
          [("inventory_hostname", AStr "web1"); ("groups", AList ["db"])]]
       AnsibleInventory.__init__ = Ok final
     ∧ AnsibleInventory.to_dict final !! "db" = Some (GroupSection gd)
     ∧ dict_vars gd !! "port" = Some (AStr "5433")).
Proof.
  split.
  - eexists.
    destruct (proj1 (later_variable_wins AnsibleInventory.__init__
        (nested_record "ansible_host_var"
           [("inventory_hostname", AStr "web1"); ("key", AStr "role");
            ("value", AStr "frontend")])
        (nested_record "ansible_host_var"
           [("inventory_hostname", AStr "web1"); ("key", AStr "role");
            ("value", AStr "backend")])
        "web1" "role" (AStr "frontend") (AStr "backend"))
      ltac:(repeat split; reflexivity) ltac:(repeat split; reflexivity)) as [_ H].
    destruct (H [nested_record "ansible_group" [("inventory_group_name", AStr "db")]]
                [nested_record "ansible_host"
                   [("inventory_hostname", AStr "web1"); ("groups", AList ["db"])]]
                _ eq_refl) as (vars & Hvars & Hrole & _).
    + constructor; [|constructor]. intros (o & Ho & Hsets).
      injection Ho as <-. destruct Hsets as [_ [v Hv]]. cbn in Hv.
      by rewrite lookup_empty in Hv.
    + exists vars. split; [reflexivity|]. by split.
  - eexists.
    destruct (proj2 (later_variable_wins AnsibleInventory.__init__
        (nested_record "ansible_group_var"
           [("inventory_group_name", AStr "db"); ("key", AStr "port");
            ("value", AStr "5432")])
        (nested_record "ansible_group_var"
           [("inventory_group_name", AStr "db"); ("key", AStr "port");
            ("value", AStr "5433")])
        "db" "port" (AStr "5432") (AStr "5433"))
      ltac:(repeat split; reflexivity) ltac:(repeat split; reflexivity)) as [_ H].
    destruct (H []
                [nested_record "ansible_host"
                   [("inventory_hostname", AStr "web1"); ("groups", AList ["db"])]]
                _ eq_refl) as (gd & Hgd & Hport).
    + constructor; [|constructor]. intros (o & Ho & Hsets).
      injection Ho as <-. destruct Hsets.
    + exists gd. split; [reflexivity|]. by split.
Defined.

(** C5 fails on the code when a group is named [_meta].  The first loop of
    [to_dict] puts the variables of the hosts under [out["_meta"]] and the
    second loop, [out[groupname] = group.to_dict()], then files the group
    under that very key.  Below, a 0.12 state declares the variable [role]
    of [web1] twice and a group [_meta]: the inventory holds the later value
    [backend], as the claim has it, and the document [_main] returns has the
    section of the group under [_meta] and no [hostvars] under any key, so
    the later value is not serialised. *)
Theorem meta_group_drops_hostvars :
  let host_var value :=
    [("inventory_hostname", AStr "web1"); ("key", AStr "role"); ("value", AStr value)] in
  let group := [("inventory_group_name", AStr "_meta")] in
  let instance attrs := {| json_type := None; json_attributes := Some attrs |} in
  let state :=
    {| state_modules := None;
       state_resources := Some
         [{| resource_type := Some "ansible_host_var";
             resource_instances := Some [instance (host_var "frontend")] |};
          {| resource_type := Some "ansible_host_var";
             resource_instances := Some [instance (host_var "backend")] |};
          {| resource_type := Some "ansible_group";
             resource_instances := Some [instance group] |}] |} in
  let records :=
    [nested_record "ansible_host_var" (host_var "frontend");
     nested_record "ansible_host_var" (host_var "backend");
     nested_record "ansible_group" group] in
  TerraformState.resources (TerraformState.__init__ state) = (records, None) ∧
  ∃ final doc,
    main_loop records AnsibleInventory.__init__ = Ok final ∧
    AnsibleInventory.hostvars final !! "web1" = Some {["role" := AStr "backend"]} ∧
    _main records = Ok doc ∧
    _main_from_state state = Ok doc ∧
    doc !! "_meta" =
      Some (GroupSection {| dict_children := []; dict_hosts := []; dict_vars := ∅ |}) ∧
    ∀ name hostvars, doc !! name ≠ Some (MetaSection hostvars).
Proof.
  cbv zeta. split; [reflexivity|].
  eexists _, _. split; [reflexivity|].
  split; [rewrite hostvars_lookup; vm_compute; reflexivity|].
  split; [reflexivity|].
  split; [reflexivity|].
  split; [rewrite to_dict_lookup; vm_compute; reflexivity|].
  intros name hostvars. rewrite to_dict_lookup.
  match goal with
  | |- context [AnsibleInventory.groups ?final !! name] =>
      destruct (AnsibleInventory.groups final !! name) eqn:Hgroup; [discriminate|]
  end.
  case_decide as Hname; [|discriminate].
  subst name. vm_compute in Hgroup. discriminate Hgroup.
Qed.

(** ** Applying a host record twice *)

(** C6: once an [ansible_host] record has been applied to an inventory,
    applying it again succeeds and changes nothing: the host keeps its
    groups and its variables, and so does everything else. *)
Theorem host_record_twice resource inventory inventory1 :
  type resource = Ok "ansible_host" →
  AnsibleInventory.add_resource resource inventory = Ok inventory1 →
  AnsibleInventory.add_resource resource inventory1 = Ok inventory1.
Proof.
  intros Hty. unfold AnsibleInventory.add_resource. rewrite Hty. cbn.
  unfold AnsibleInventory.add_host_resource.
  destruct (read_attr resource "inventory_hostname") as [name|]; cbn; [|done].
  destruct (read_list_attr resource "groups") as [gs|]; cbn; [|done].
  destruct (read_dict_attr resource "vars") as [vs|]; cbn; [|done].
  destruct (AnsibleInventory.as_str "inventory_hostname" name) as [h|]; cbn; [|done].
  intros [= <-]. by rewrite update_hosts_twice.
Qed.

Lemma host_record_twice_witness :
  let web1 := nested_record "ansible_host"
    [("inventory_hostname", AStr "web1"); ("groups", AList ["webservers"]);
     ("vars", AMap {["role" := "frontend"]})] in
  let inventory1 := AnsibleInventory.update_hosts "web1" (Some ["webservers"])
    (Some {["role" := AStr "frontend"]}) AnsibleInventory.__init__ in
  AnsibleInventory.add_resource web1 inventory1 = Ok inventory1.
Proof.
  cbv zeta. apply (host_record_twice _ AnsibleInventory.__init__).
  - reflexivity.
  - unfold AnsibleInventory.add_resource, AnsibleInventory.add_host_resource. cbn.
    by rewrite map_fmap_singleton.
Defined.

(** ** Records that are skipped *)

Lemma type_set_attributes attrs resource : type (set_attributes attrs resource) = type resource.
Proof. reflexivity. Qed.

Lemma set_attributes_id resource : set_attributes (source_attributes resource) resource = resource.
Proof. by destruct resource. Qed.

(** A record without an attribute subtree: any read of it raises. *)
Lemma read_attr_no_attributes resource key :
  source_attributes resource = None →
  read_attr resource key = Raise (KeyError "attributes") ∧
  read_list_attr resource key = Raise (KeyError "attributes") ∧
  read_dict_attr resource key = Raise (KeyError "attributes").
Proof.
  intros H. unfold read_attr, read_list_attr, read_dict_attr, _raw_attributes.
  by rewrite H.
Qed.

(** C7: a record whose type does not start with [ansible_] is skipped by
    the loop of [_main], and a record whose type is none of the four handled
    ones is left alone by [add_resource]: the inventory comes back as it was,
    and this whatever the attribute subtree of the record is, even one on
    which every read would raise, so no attribute is read. *)
Theorem unhandled_record_untouched resource inventory ty :
  type resource = Ok ty →
  (String.prefix "ansible_" ty = false →
   ∀ attrs, main_step inventory (set_attributes attrs resource) = Ok inventory) ∧
  (ty ∉ handled_types →
   ∀ attrs,
     AnsibleInventory.add_resource (set_attributes attrs resource) inventory = Ok inventory ∧
     main_step inventory (set_attributes attrs resource) = Ok inventory).
Proof.
  intros Hty. split.
  - intros Hprefix attrs. unfold main_step, is_ansible.
    rewrite type_set_attributes, Hty. cbn. by rewrite Hprefix.
  - intros Hnot attrs.
    assert (Hadd : AnsibleInventory.add_resource (set_attributes attrs resource) inventory
                   = Ok inventory).
    { unfold AnsibleInventory.add_resource. rewrite type_set_attributes, Hty. cbn.
      unfold handled_types in Hnot.
      repeat (apply not_elem_of_cons in Hnot as [? Hnot]).
      repeat match goal with
             | |- context [String.eqb ty ?s] =>
                 destruct (String.eqb_spec ty s); [congruence|]
             end.
      done. }
    split; [done|]. unfold main_step, is_ansible.
    rewrite type_set_attributes, Hty. cbn.
    by destruct (String.prefix "ansible_" ty).
Qed.

Lemma unhandled_record_untouched_witness :
  main_step AnsibleInventory.__init__
    (set_attributes None
       (flat_record "aws_instance" [("groups.#", AStr "many")])) = Ok AnsibleInventory.__init__
  ∧ AnsibleInventory.add_resource
      (set_attributes (Some [("inventory_hostname", AList ["a"]); ("groups.#", AStr "many")])
         (flat_record "ansible_playbook" []))
      AnsibleInventory.__init__ = Ok AnsibleInventory.__init__.
Proof.
  split.
  - apply (proj1 (unhandled_record_untouched
                    (flat_record "aws_instance" [("groups.#", AStr "many")])
                    AnsibleInventory.__init__ "aws_instance" eq_refl)).
    reflexivity.
  - apply (proj2 (unhandled_record_untouched (flat_record "ansible_playbook" [])
                    AnsibleInventory.__init__ "ansible_playbook" eq_refl)).
    unfold handled_types. intros H.
    repeat (apply elem_of_cons in H as [H|H]; [discriminate H|]).
    by apply elem_of_nil in H.
Defined.

(** ** Members that are not hosts *)

(** C8: [update_groups] is called with a name among its [hosts] or its
    [children], and [update_hosts] is never called for that name, in a run
    from the empty inventory: the inventory has no host of that name, the
    [hostvars] of the document have no entry for it, and the group lists
    the name, under [hosts] or under [children] as it was given. *)
Theorem member_without_host ops groupname children hosts' group_vars name :
  UpsertGroup groupname children hosts' group_vars ∈ ops →
  (∀ gs vs, UpsertHost name gs vs ∉ ops) →
  AnsibleInventory.hosts (run ops AnsibleInventory.__init__) !! name = None ∧
  AnsibleInventory.hostvars (run ops AnsibleInventory.__init__) !! name = None ∧
  (∀ hv, AnsibleInventory.to_dict (run ops AnsibleInventory.__init__) !! "_meta"
           = Some (MetaSection hv) → hv !! name = None) ∧
  ∃ gd, AnsibleInventory.to_dict (run ops AnsibleInventory.__init__) !! groupname
          = Some (GroupSection gd) ∧
        (name ∈ default [] hosts' → name ∈ dict_hosts gd) ∧
        (name ∈ default [] children → name ∈ dict_children gd).
Proof.
  intros Hop Hnever.
  assert (Hnone : AnsibleInventory.hosts (run ops AnsibleInventory.__init__) !! name = None).
  { apply eq_None_not_Some. intros Hsome.
    apply run_hosts_is_Some in Hsome as [Hinit|(gs & vs & Hin)].
    - cbn in Hinit. rewrite lookup_empty in Hinit. by destruct Hinit.
    - by apply (Hnever gs vs). }
  assert (Hvars : AnsibleInventory.hostvars (run ops AnsibleInventory.__init__) !! name = None)
    by by rewrite hostvars_lookup, Hnone.
  split; [done|]. split; [done|]. split.
  - intros hv. rewrite to_dict_lookup.
    destruct (AnsibleInventory.groups _ !! "_meta"); [done|].
    rewrite decide_True by done. by intros [= <-].
  - apply list_elem_of_split in Hop as (ops1 & ops2 & ->).
    rewrite run_app. change (run (?o :: ?l) ?s) with (run l (apply_operation s o)).
    cbn [apply_operation].
    destruct (update_groups_lookup groupname children hosts' group_vars
                (run ops1 AnsibleInventory.__init__)) as (group & Hgroup & Hhosts & Hchildren & _).
    destruct (run_grows ops2 _ groupname group Hgroup) as (group' & Hgroup' & Hsubh & Hsubc).
    rewrite to_dict_lookup, Hgroup'. eexists; split; [done|]. cbn. split.
    + intros Hin. apply sorted_elem_of. by apply Hsubh, Hhosts.
    + intros Hin. apply sorted_elem_of. by apply Hsubc, Hchildren.
Qed.

Lemma member_without_host_witness :
  let ops := [UpsertGroup "web" (Some ["blue"]) (Some ["ghost"]) None;
              UpsertHost "web1" (Some ["web"]) None] in
  AnsibleInventory.hosts (run ops AnsibleInventory.__init__) !! "ghost" = None ∧
  AnsibleInventory.hostvars (run ops AnsibleInventory.__init__) !! "ghost" = None ∧
  (∀ hv, AnsibleInventory.to_dict (run ops AnsibleInventory.__init__) !! "_meta"
           = Some (MetaSection hv) → hv !! "ghost" = None) ∧
  ∃ gd, AnsibleInventory.to_dict (run ops AnsibleInventory.__init__) !! "web"
          = Some (GroupSection gd) ∧
        ("ghost" ∈ ["ghost"] → "ghost" ∈ dict_hosts gd) ∧
        ("ghost" ∈ ["blue"] → "ghost" ∈ dict_children gd).
Proof.
  cbv zeta.
  apply (member_without_host
           [UpsertGroup "web" (Some ["blue"]) (Some ["ghost"]) None;
            UpsertHost "web1" (Some ["web"]) None]
           "web" (Some ["blue"]) (Some ["ghost"]) None "ghost").
  - apply elem_of_cons. by left.
  - intros gs vs H.
    repeat (apply elem_of_cons in H as [H|H]; [discriminate H|]).
    by apply elem_of_nil in H.
Defined.

(** ** Sorted lists at serialisation *)

Lemma sorted_is_listing (X : gset string) : sorted_listing X (sorted X).
Proof.
  split; [apply sorted_StronglySorted|]. split; [apply sorted_elem_of|].
  apply sorted_any_order.
Qed.

Lemma to_dict_group self g gd :
  AnsibleInventory.to_dict self !! g = Some (GroupSection gd) →
  ∃ group, AnsibleInventory.groups self !! g = Some group ∧
           gd = AnsibleGroup.to_dict (AnsibleGroup.tidy group).
Proof.
  rewrite to_dict_lookup.
  destruct (AnsibleInventory.groups self !! g) as [group|].
  - intros [= <-]. by exists group.
  - by case_decide.
Qed.

(** C9: [to_dict] gives every group of the inventory a section of the
    document, with the [children] and the [hosts] of the group in
    lexicographic order, and every section of a group comes from a group of
    the inventory; it leaves every host of the inventory with its groups in
    that order, and tidies no other host.  Each list holds the elements of
    the set it comes from and is what sorting any enumeration of that set
    gives, so two inventories with the same sets under a name serialise the
    same lists. *)
Theorem serialised_lists_sorted self :
  (∀ g group, AnsibleInventory.groups self !! g = Some group →
     ∃ gd, AnsibleInventory.to_dict self !! g = Some (GroupSection gd) ∧
       sorted_listing (AnsibleGroup.children group) (dict_children gd) ∧
       sorted_listing (AnsibleGroup.hosts group) (dict_hosts gd)) ∧
  (∀ g gd, AnsibleInventory.to_dict self !! g = Some (GroupSection gd) →
     ∃ group, AnsibleInventory.groups self !! g = Some group ∧
       sorted_listing (AnsibleGroup.children group) (dict_children gd) ∧
       sorted_listing (AnsibleGroup.hosts group) (dict_hosts gd)) ∧
  (∀ h host, AnsibleInventory.hosts self !! h = Some host →
     ∃ host', AnsibleInventory.tidy_hosts self !! h = Some host' ∧
       sorted_listing (AnsibleHost.groups host) (AnsibleHost.tidy_groups host')) ∧
  (∀ h host', AnsibleInventory.tidy_hosts self !! h = Some host' →
     ∃ host, AnsibleInventory.hosts self !! h = Some host ∧
       sorted_listing (AnsibleHost.groups host) (AnsibleHost.tidy_groups host')) ∧
  (∀ self' g group group',
     AnsibleInventory.groups self !! g = Some group →
     AnsibleInventory.groups self' !! g = Some group' →
     AnsibleGroup.children group ≡ AnsibleGroup.children group' →
     AnsibleGroup.hosts group ≡ AnsibleGroup.hosts group' →
     ∃ gd gd',
       AnsibleInventory.to_dict self !! g = Some (GroupSection gd) ∧
       AnsibleInventory.to_dict self' !! g = Some (GroupSection gd') ∧
       dict_children gd = dict_children gd' ∧ dict_hosts gd = dict_hosts gd') ∧
  (∀ self' h host host',
     AnsibleInventory.hosts self !! h = Some host →
     AnsibleInventory.hosts self' !! h = Some host' →
     AnsibleHost.groups host ≡ AnsibleHost.groups host' →
     ∃ tidied tidied',
       AnsibleInventory.tidy_hosts self !! h = Some tidied ∧
       AnsibleInventory.tidy_hosts self' !! h = Some tidied' ∧
       AnsibleHost.tidy_groups tidied = AnsibleHost.tidy_groups tidied').
Proof.
  repeat split.
  - intros g group Hg. eexists. rewrite to_dict_lookup, Hg.
    split; [done|]. split; apply sorted_is_listing.
  - intros g gd Hg. destruct (to_dict_group _ _ _ Hg) as (group & Hgroup & ->).
    exists group. split; [done|]. split; apply sorted_is_listing.
  - intros h host Hh. eexists. unfold AnsibleInventory.tidy_hosts.
    rewrite lookup_fmap, Hh. split; [done|]. apply sorted_is_listing.
  - intros h host'. unfold AnsibleInventory.tidy_hosts. rewrite lookup_fmap.
    destruct (AnsibleInventory.hosts self !! h) as [host|]; cbn; [|done].
    intros [= <-]. exists host. split; [done|]. apply sorted_is_listing.
  - intros self' g group group' Hg Hg' Hc Hh.
    apply leibniz_equiv in Hc, Hh. eexists _, _.
    rewrite !to_dict_lookup, Hg, Hg'. split; [done|]. split; [done|].
    cbn. by rewrite Hc, Hh.
  - intros self' h host host' Hh Hh' Hgroups.
    apply leibniz_equiv in Hgroups. eexists _, _.
    unfold AnsibleInventory.tidy_hosts. rewrite !lookup_fmap, Hh, Hh'.
    split; [done|]. split; [done|]. cbn. by rewrite Hgroups.
Qed.

Lemma serialised_lists_sorted_witness :
  let self := run [UpsertHost "web1" (Some ["web"; "blue"]) None;
                   UpsertGroup "web" (Some ["zeta"; "alpha"]) None None;
                   UpsertHost "app1" (Some ["web"]) None] AnsibleInventory.__init__ in
  let self' := run [UpsertHost "app1" (Some ["web"]) None;
                    UpsertGroup "web" (Some ["alpha"]) None None;
                    UpsertHost "web1" (Some ["blue"; "web"]) None;
                    UpsertGroup "web" (Some ["zeta"]) None None] AnsibleInventory.__init__ in
  (∃ gd, AnsibleInventory.to_dict self !! "web" = Some (GroupSection gd) ∧
     dict_children gd = ["alpha"; "zeta"] ∧ dict_hosts gd = ["app1"; "web1"]) ∧
  (∃ host', AnsibleInventory.tidy_hosts self !! "web1" = Some host' ∧
     AnsibleHost.tidy_groups host' = ["all"; "blue"; "web"]) ∧
  (∃ gd gd',
     AnsibleInventory.to_dict self !! "web" = Some (GroupSection gd) ∧
     AnsibleInventory.to_dict self' !! "web" = Some (GroupSection gd') ∧
     dict_children gd = dict_children gd' ∧ dict_hosts gd = dict_hosts gd') ∧
  (∃ tidied tidied',
     AnsibleInventory.tidy_hosts self !! "web1" = Some tidied ∧
     AnsibleInventory.tidy_hosts self' !! "web1" = Some tidied' ∧
     AnsibleHost.tidy_groups tidied = AnsibleHost.tidy_groups tidied').
Proof.
  cbv zeta.
  set (self := run [UpsertHost "web1" (Some ["web"; "blue"]) None;
                    UpsertGroup "web" (Some ["zeta"; "alpha"]) None None;
                    UpsertHost "app1" (Some ["web"]) None] AnsibleInventory.__init__).
  set (self' := run [UpsertHost "app1" (Some ["web"]) None;
                     UpsertGroup "web" (Some ["alpha"]) None None;
                     UpsertHost "web1" (Some ["blue"; "web"]) None;
                     UpsertGroup "web" (Some ["zeta"]) None None] AnsibleInventory.__init__).
  destruct (AnsibleInventory.groups self !! "web") as [group|] eqn:Hgroup;
    [|vm_compute in Hgroup; discriminate Hgroup].
  destruct (AnsibleInventory.groups self' !! "web") as [group'|] eqn:Hgroup';
    [|vm_compute in Hgroup'; discriminate Hgroup'].
  destruct (AnsibleInventory.hosts self !! "web1") as [host|] eqn:Hhost;
    [|vm_compute in Hhost; discriminate Hhost].
  destruct (AnsibleInventory.hosts self' !! "web1") as [host'|] eqn:Hhost';
    [|vm_compute in Hhost'; discriminate Hhost'].
  destruct (serialised_lists_sorted self) as (Hgroups & _ & Hhosts & _ & Hsame & Hsame').
  split; [|split; [|split]].
  - destruct (Hgroups "web" group Hgroup) as (gd & Hgd & _).
    exists gd. split; [done|].
    rewrite to_dict_lookup, Hgroup in Hgd. injection Hgd as <-.
    vm_compute in Hgroup. injection Hgroup as <-. split; vm_compute; reflexivity.
  - destruct (Hhosts "web1" host Hhost) as (tidied & Htidied & _).
    exists tidied. split; [done|].
    unfold AnsibleInventory.tidy_hosts in Htidied.
    rewrite lookup_fmap, Hhost in Htidied. injection Htidied as <-.
    vm_compute in Hhost. injection Hhost as <-. vm_compute. reflexivity.
  - apply (Hsame self' "web" group group' Hgroup Hgroup').
    + vm_compute in Hgroup, Hgroup'. injection Hgroup as <-. injection Hgroup' as <-.
      apply (bool_decide_unpack _). vm_compute. exact I.
    + vm_compute in Hgroup, Hgroup'. injection Hgroup as <-. injection Hgroup' as <-.
      apply (bool_decide_unpack _). vm_compute. exact I.
  - apply (Hsame' self' "web1" host host' Hhost Hhost').
    vm_compute in Hhost, Hhost'. injection Hhost as <-. injection Hhost' as <-.
    apply (bool_decide_unpack _). vm_compute. exact I.
Defined.

(** * Further properties of the inventory *)

(** ** Upserts are idempotent *)

Lemma group_update_twice children hosts' group_vars group :
  AnsibleGroup.update children hosts' group_vars
    (AnsibleGroup.update children hosts' group_vars group) =
  AnsibleGroup.update children hosts' group_vars group.
Proof.
  destruct group as [n hs cs vs]. unfold AnsibleGroup.update. cbn.
  f_equal.
  - destruct (truthy_list hosts'); set_solver.
  - destruct (truthy_list children); set_solver.
  - destruct (truthy_dict group_vars); [|done].
    by rewrite (assoc (∪)), (idemp (∪)).
Qed.

Lemma update_groups_twice groupname children hosts' group_vars self :
  AnsibleInventory.update_groups groupname children hosts' group_vars
    (AnsibleInventory.update_groups groupname children hosts' group_vars self) =
  AnsibleInventory.update_groups groupname children hosts' group_vars self.
Proof.
  unfold AnsibleInventory.update_groups. cbn. rewrite lookup_insert_eq.
  apply inventory_eq; cbn; [|done].
  rewrite insert_insert_eq. f_equal.
  destruct (AnsibleInventory.groups self !! groupname);
    unfold AnsibleGroup.__init__; apply group_update_twice.
Qed.

(** X1: a record the loop of [_main] has accepted is accepted again on the
    inventory it left, and leaves that inventory as it is, whatever its
    type. *)
Theorem record_twice resource inventory inventory1 :
  main_step inventory resource = Ok inventory1 →
  main_step inventory1 resource = Ok inventory1.
Proof.
  rewrite !main_step_operation.
  destruct (operation_of resource) as [[o|]|]; cbn; [| |done].
  - intros [= <-]. f_equal.
    destruct o; cbn; [apply update_hosts_twice|apply update_groups_twice].
  - by intros [= <-].
Qed.

Lemma record_twice_witness :
  let db := nested_record "ansible_group"
    [("inventory_group_name", AStr "db"); ("children", AList ["replicas"]);
     ("vars", AMap {["port" := "5432"]})] in
  let inventory1 := AnsibleInventory.update_groups "db" (Some ["replicas"]) None
    (Some {["port" := AStr "5432"]}) AnsibleInventory.__init__ in
  main_step inventory1 db = Ok inventory1.
Proof.
  cbv zeta. apply (record_twice _ AnsibleInventory.__init__).
  unfold main_step, AnsibleInventory.add_resource, AnsibleInventory.add_group_resource.
  cbn. by rewrite map_fmap_singleton.
Defined.

(** ** Names and keys agree *)

Lemma host_update_hostname gs vs host :
  AnsibleHost.hostname (AnsibleHost.update gs vs host) = AnsibleHost.hostname host.
Proof.
  destruct host. unfold AnsibleHost.update.
  by destruct (truthy_dict vs), (truthy_list gs).
Qed.

Lemma upserted_host_hostname h gs vs self :
  (∀ host, AnsibleInventory.hosts self !! h = Some host → AnsibleHost.hostname host = h) →
  AnsibleHost.hostname (upserted_host h gs vs self) = h.
Proof.
  intros Hname. unfold upserted_host, AnsibleHost.__init__.
  destruct (AnsibleInventory.hosts self !! h) as [host|] eqn:Hh;
    rewrite host_update_hostname; [by apply Hname|done].
Qed.

Lemma enrol_groupname h g old :
  (∀ group, old = Some group → AnsibleGroup.groupname group = g) →
  AnsibleGroup.groupname (enrol h g old) = g.
Proof. intros Hname. destruct old as [group|]; cbn; [by apply Hname|done]. Qed.

Lemma apply_operation_filed_under_own_name self o :
  filed_under_own_name self → filed_under_own_name (apply_operation self o).
Proof.
  intros [Hhosts Hgroups].
  destruct o as [hostname gs vs|groupname cs hs vs]; cbn [apply_operation]; split.
  - intros h host. rewrite update_hosts_hosts.
    destruct (decide (hostname = h)) as [->|Hne].
    + rewrite lookup_insert_eq. intros [= <-].
      apply upserted_host_hostname. intros host'. apply Hhosts.
    + rewrite lookup_insert_ne by done. apply Hhosts.
  - intros g group. rewrite update_hosts_groups. case_decide.
    + intros [= <-]. apply enrol_groupname. intros group'. apply Hgroups.
    + apply Hgroups.
  - intros h host. rewrite update_groups_hosts. apply Hhosts.
  - intros g group. unfold AnsibleInventory.update_groups. cbn [AnsibleInventory.groups].
    destruct (decide (groupname = g)) as [->|Hne].
    + rewrite lookup_insert_eq. intros [= <-].
      destruct (AnsibleInventory.groups self !! g) as [old|] eqn:Hg; [|done].
      cbn. by apply Hgroups.
    + rewrite lookup_insert_ne by done. apply Hgroups.
Qed.

(** X2: after any sequence of [update_hosts] and [update_groups] from the
    empty inventory, the [hostname] of every host is the key it is stored
    under in [hosts], and the [groupname] of every group the key it is
    stored under in [groups]. *)
Theorem filed_under_own_name_always (ops : list operation) :
  filed_under_own_name (run ops AnsibleInventory.__init__).
Proof.
  induction ops as [|o ops IH] using rev_ind.
  - split; intros k x Hk; cbn in Hk; by rewrite lookup_empty in Hk.
  - rewrite run_snoc. by apply apply_operation_filed_under_own_name.
Qed.

(** ** Nothing is ever removed *)

Lemma host_update_vars_mono gs vs host :
  dom (AnsibleHost.host_vars host) ⊆
  dom (AnsibleHost.host_vars (AnsibleHost.update gs vs host)).
Proof.
  destruct host as [n hs hv]. unfold AnsibleHost.update.
  destruct (truthy_dict vs), (truthy_list gs); cbn; try done.
  all: rewrite dom_union_L; set_solver.
Qed.

Lemma group_update_vars_mono cs hs vs group :
  dom (AnsibleGroup.group_vars group) ⊆
  dom (AnsibleGroup.group_vars (AnsibleGroup.update cs hs vs group)).
Proof.
  destruct group as [n hs' cs' gv]. unfold AnsibleGroup.update. cbn.
  destruct (truthy_dict vs); [|done]. rewrite dom_union_L. set_solver.
Qed.

Lemma apply_operation_nothing_removed self o : nothing_removed self (apply_operation self o).
Proof.
  split.
  - intros h host Hh. destruct o as [hostname gs vs|groupname cs hs vs]; cbn [apply_operation].
    + rewrite update_hosts_hosts. destruct (decide (hostname = h)) as [->|Hne].
      * rewrite lookup_insert_eq. eexists; split; [done|].
        unfold upserted_host. rewrite Hh. split.
        -- apply host_update_groups_mono.
        -- apply host_update_vars_mono.
      * rewrite lookup_insert_ne by done. by exists host.
    + rewrite update_groups_hosts. by exists host.
  - intros g group Hg. destruct o as [hostname gs vs|groupname cs hs vs]; cbn [apply_operation].
    + rewrite update_hosts_groups, Hg. case_decide.
      * eexists; split; [done|]. unfold enrol. split; [|split].
        -- apply group_update_hosts_mono.
        -- apply group_update_children_mono.
        -- apply group_update_vars_mono.
      * by exists group.
    + unfold AnsibleInventory.update_groups. cbn [AnsibleInventory.groups].
      destruct (decide (groupname = g)) as [->|Hne].
      * rewrite lookup_insert_eq, Hg. eexists; split; [done|]. split; [|split].
        -- apply group_update_hosts_mono.
        -- apply group_update_children_mono.
        -- apply group_update_vars_mono.
      * rewrite lookup_insert_ne by done. by exists group.
Qed.

Lemma nothing_removed_refl self : nothing_removed self self.
Proof. split; intros k x Hk; by exists x. Qed.

Lemma nothing_removed_trans a b c :
  nothing_removed a b → nothing_removed b c → nothing_removed a c.
Proof.
  intros [Hh1 Hg1] [Hh2 Hg2]. split.
  - intros h host Hh. destruct (Hh1 h host Hh) as (host1 & E1 & Ha & Hb).
    destruct (Hh2 h host1 E1) as (host2 & E2 & Hc & Hd).
    exists host2. split; [done|]. split; set_solver.
  - intros g group Hg. destruct (Hg1 g group Hg) as (group1 & E1 & Ha & Hb & Hc).
    destruct (Hg2 g group1 E1) as (group2 & E2 & Hd & He & Hf).
    exists group2. split; [done|]. repeat split; set_solver.
Qed.

Lemma run_nothing_removed ops self : nothing_removed self (run ops self).
Proof.
  induction ops as [|o ops IH] using rev_ind; [apply nothing_removed_refl|].
  rewrite run_snoc. eapply nothing_removed_trans; [done|].
  apply apply_operation_nothing_removed.
Qed.

(** X3: processing records never removes anything from the inventory: a
    host stays, with all its groups and variable names, and a group stays,
    with all its hosts, children and variable names. *)
Theorem records_remove_nothing resources inventory final :
  main_loop resources inventory = Ok final → nothing_removed inventory final.
Proof.
  intros Hloop. destruct (main_loop_run _ _ _ Hloop) as (ops & _ & ->).
  apply run_nothing_removed.
Qed.

Lemma records_remove_nothing_witness :
  nothing_removed
    (AnsibleInventory.update_hosts "web1" (Some ["web"]) None AnsibleInventory.__init__)
    (AnsibleInventory.update_groups "web" None None (Some {["tier" := AStr "front"]})
       (AnsibleInventory.update_hosts "web1" (Some ["web"]) None AnsibleInventory.__init__)).
Proof.
  apply (records_remove_nothing
           [nested_record "ansible_group_var"
              [("inventory_group_name", AStr "web"); ("key", AStr "tier");
               ("value", AStr "front")]]).
  reflexivity.
Defined.

(** ** The sets and variables of the inventory, read off the upserts *)

Lemma truthy_list_false_default (l : option (list string)) :
  truthy_list l = false → default [] l = [].
Proof. by destruct l as [[|x l]|]. Qed.

Lemma truthy_dict_false_default (d : option (gmap string attr_value)) :
  truthy_dict d = false → default ∅ d = ∅.
Proof. destruct d as [m|]; cbn; [|done]. by case_decide. Qed.

Lemma host_update_groups_elem gs vs host g :
  g ∈ AnsibleHost.groups (AnsibleHost.update gs vs host) ↔
  g ∈ AnsibleHost.groups host ∨ g ∈ default [] gs.
Proof.
  destruct host as [n hs hv]. unfold AnsibleHost.update.
  destruct (truthy_dict vs), (truthy_list gs) eqn:Hgs; cbn.
  all: try (rewrite elem_of_union, elem_of_list_to_set; done).
  all: rewrite (truthy_list_false_default _ Hgs); set_solver.
Qed.

Lemma group_update_hosts_elem cs hs vs group h :
  h ∈ AnsibleGroup.hosts (AnsibleGroup.update cs hs vs group) ↔
  h ∈ AnsibleGroup.hosts group ∨ h ∈ default [] hs.
Proof.
  destruct group as [n hs' cs' gv]. unfold AnsibleGroup.update. cbn.
  destruct (truthy_list hs) eqn:Hhs.
  - by rewrite elem_of_union, elem_of_list_to_set.
  - rewrite (truthy_list_false_default _ Hhs). set_solver.
Qed.

Lemma group_update_children_elem cs hs vs group c :
  c ∈ AnsibleGroup.children (AnsibleGroup.update cs hs vs group) ↔
  c ∈ AnsibleGroup.children group ∨ c ∈ default [] cs.
Proof.
  destruct group as [n hs' cs' gv]. unfold AnsibleGroup.update. cbn.
  destruct (truthy_list cs) eqn:Hcs.
  - by rewrite elem_of_union, elem_of_list_to_set.
  - rewrite (truthy_list_false_default _ Hcs). set_solver.
Qed.

Lemma upserted_host_groups_elem h gs vs self g :
  g ∈ AnsibleHost.groups (upserted_host h gs vs self) ↔
  match AnsibleInventory.hosts self !! h with
  | Some host => g ∈ AnsibleHost.groups host
  | None => g = "all"
  end ∨ g ∈ default [] gs.
Proof.
  unfold upserted_host, AnsibleHost.__init__.
  destruct (AnsibleInventory.hosts self !! h); rewrite host_update_groups_elem; cbn;
    set_solver.
Qed.

(** X4: after a sequence of upserts from the empty inventory, the groups of
    a host are [all] and the groups the calls of [update_hosts] for that host
    named, and no other. *)
Theorem host_groups_exact ops h host g :
  AnsibleInventory.hosts (run ops AnsibleInventory.__init__) !! h = Some host →
  g ∈ AnsibleHost.groups host ↔ g = "all" ∨ ∃ o, o ∈ ops ∧ names_group o h g.
Proof.
  revert host. induction ops as [|o ops IH] using rev_ind; intros host.
  - cbn. by rewrite lookup_empty.
  - rewrite run_snoc.
    destruct o as [hostname gs vs|groupname cs hs vs]; cbn [apply_operation].
    + rewrite update_hosts_hosts. destruct (decide (hostname = h)) as [->|Hne].
      * rewrite lookup_insert_eq. intros [= <-]. rewrite upserted_host_groups_elem.
        destruct (AnsibleInventory.hosts (run ops AnsibleInventory.__init__) !! h)
          as [host0|] eqn:Hh.
        -- rewrite (IH host0 eq_refl). split.
           ++ intros [[?|(o & Ho & Hn)]|Hg]; [by left| |].
              ** right. exists o. split; [set_solver|done].
              ** right. exists (UpsertHost h gs vs). split; [set_solver|done].
           ++ intros [?|(o & Ho & Hn)]; [by left; left|].
              apply elem_of_app in Ho as [Ho|Ho].
              ** left. right. by exists o.
              ** apply list_elem_of_singleton in Ho. subst o. right. apply Hn.
        -- split.
           ++ intros [?|Hg]; [by left|].
              right. exists (UpsertHost h gs vs). split; [set_solver|done].
           ++ intros [?|(o & Ho & Hn)]; [by left|].
              apply elem_of_app in Ho as [Ho|Ho].
              ** exfalso. destruct o as [h' gs' vs'|]; [|done]. destruct Hn as [-> _].
                 assert (Hsome : is_Some (AnsibleInventory.hosts
                            (run ops AnsibleInventory.__init__) !! h)).
                 { apply run_hosts_is_Some. right. by exists gs', vs'. }
                 rewrite Hh in Hsome. by destruct Hsome.
              ** apply list_elem_of_singleton in Ho. subst o. right. apply Hn.
      * rewrite lookup_insert_ne by done. intros Hh. rewrite (IH host Hh).
        split; (intros [?|(o & Ho & Hn)]; [by left|right]).
        -- exists o. split; [set_solver|done].
        -- apply elem_of_app in Ho as [Ho|Ho]; [by exists o|].
           apply list_elem_of_singleton in Ho. subst o. by destruct Hn.
    + rewrite update_groups_hosts. intros Hh. rewrite (IH host Hh).
      split; (intros [?|(o & Ho & Hn)]; [by left|right]).
      * exists o. split; [set_solver|done].
      * apply elem_of_app in Ho as [Ho|Ho]; [by exists o|].
        apply list_elem_of_singleton in Ho. by subst o.
Qed.

Lemma host_groups_exact_witness :
  let ops := [UpsertHost "web1" (Some ["web"]) None; UpsertGroup "db" None None None;
              UpsertHost "web1" (Some ["blue"]) None] in
  ∃ host, AnsibleInventory.hosts (run ops AnsibleInventory.__init__) !! "web1" = Some host ∧
    ("blue" ∈ AnsibleHost.groups host ↔
     "blue" = "all" ∨ ∃ o, o ∈ ops ∧ names_group o "web1" "blue").
Proof.
  cbv zeta. eexists. split; [reflexivity|].
  apply host_groups_exact. reflexivity.
Defined.

Lemma child_of_apply_operation self o g c :
  child_of (apply_operation self o) g c ↔ child_of self g c ∨ gives_child o g c.
Proof.
  unfold child_of.
  destruct o as [hostname gs vs|groupname cs hs vs]; cbn [apply_operation gives_child].
  - setoid_rewrite update_hosts_groups. case_decide.
    + split.
      * intros (group & [= <-] & Hc). left. rewrite enrol_children in Hc.
        destruct (AnsibleInventory.groups self !! g) as [old|]; [by exists old|].
        cbn in Hc. set_solver.
      * intros [(old & Hold & Hc)|[]]. eexists; split; [done|].
        by rewrite enrol_children, Hold.
    + naive_solver.
  - unfold AnsibleInventory.update_groups. cbn [AnsibleInventory.groups].
    destruct (decide (groupname = g)) as [->|Hne].
    + setoid_rewrite lookup_insert_eq. split.
      * intros (group & [= <-] & Hc).
        destruct (AnsibleInventory.groups self !! g) as [old|].
        -- apply group_update_children_elem in Hc as [Hc|Hc]; [left; by exists old|by right].
        -- unfold AnsibleGroup.__init__ in Hc.
           apply group_update_children_elem in Hc as [Hc|Hc]; [cbn in Hc; set_solver|by right].
      * intros [(old & Hold & Hc)|[_ Hc]]; (eexists; split; [done|]).
        -- rewrite Hold. apply group_update_children_elem. by left.
        -- destruct (AnsibleInventory.groups self !! g); unfold AnsibleGroup.__init__;
             apply group_update_children_elem; by right.
    + setoid_rewrite lookup_insert_ne; [|done]. naive_solver.
Qed.

(** X5: after a sequence of upserts from the empty inventory, the children
    of a group are the names the calls of [update_groups] for that group gave
    as children, and no other. *)
Theorem group_children_exact ops g group c :
  AnsibleInventory.groups (run ops AnsibleInventory.__init__) !! g = Some group →
  c ∈ AnsibleGroup.children group ↔ ∃ o, o ∈ ops ∧ gives_child o g c.
Proof.
  intros Hg.
  assert (Hchar : child_of (run ops AnsibleInventory.__init__) g c ↔
                  ∃ o, o ∈ ops ∧ gives_child o g c).
  { clear. induction ops as [|o ops IH] using rev_ind.
    - split.
      + intros (group & Hg & _). cbn in Hg. by rewrite lookup_empty in Hg.
      + intros (o & Ho & _). by apply elem_of_nil in Ho.
    - rewrite run_snoc, child_of_apply_operation, IH. split.
      + intros [(o' & Ho & Hc)|Hc]; [exists o'|exists o]; (split; [set_solver|done]).
      + intros (o' & Ho & Hc). apply elem_of_app in Ho as [Ho|Ho].
        * left. by exists o'.
        * apply list_elem_of_singleton in Ho. subst o'. by right. }
  rewrite <- Hchar. unfold child_of. rewrite Hg. split.
  - intros Hc. by exists group.
  - by intros (group' & [= <-] & Hc).
Qed.

Lemma group_children_exact_witness :
  let ops := [UpsertGroup "db" (Some ["replicas"]) None None;
              UpsertHost "db1" (Some ["db"]) None;
              UpsertGroup "db" (Some ["primaries"]) None None] in
  ∃ group, AnsibleInventory.groups (run ops AnsibleInventory.__init__) !! "db" = Some group ∧
    ("replicas" ∈ AnsibleGroup.children group ↔
     ∃ o, o ∈ ops ∧ gives_child o "db" "replicas").
Proof.
  cbv zeta.
  destruct (AnsibleInventory.groups _ !! "db") as [group|] eqn:Hg;
    [|vm_compute in Hg; discriminate Hg].
  exists group. split; [done|]. by apply group_children_exact.
Defined.

Lemma listed_in_apply_operation self o g h :
  listed_in (apply_operation self o) g h ↔
  listed_in self g h ∨ gives_host o g h ∨
  ∃ gs vs, o = UpsertHost h gs vs ∧ member_of (apply_operation self o) h g.
Proof.
  unfold listed_in, member_of.
  destruct o as [hostname gs vs|groupname cs hs vs]; cbn [apply_operation gives_host].
  - setoid_rewrite update_hosts_groups. setoid_rewrite update_hosts_hosts. split.
    + case_decide as Hin.
      * intros (group & [= <-] & Hh). rewrite enrol_hosts in Hh.
        apply elem_of_union in Hh as [Hh|Hh].
        -- left. destruct (AnsibleInventory.groups self !! g) as [old|]; [by exists old|].
           cbn in Hh. set_solver.
        -- apply elem_of_singleton in Hh. subst h. right. right.
           exists gs, vs. split; [done|]. eexists. by rewrite lookup_insert_eq.
      * intros (group & Hg & Hh). left. by exists group.
    + intros [(old & Hold & Hh)|[[]|(gs' & vs' & [= -> -> ->] & host & Hhost & Hg)]].
      * rewrite Hold. case_decide.
        -- eexists; split; [done|]. rewrite enrol_hosts. cbn. set_solver.
        -- by exists old.
      * rewrite lookup_insert_eq in Hhost. injection Hhost as <-.
        rewrite decide_True by done. eexists; split; [done|].
        rewrite enrol_hosts. set_solver.
  - unfold AnsibleInventory.update_groups. cbn [AnsibleInventory.groups].
    destruct (decide (groupname = g)) as [->|Hne].
    + setoid_rewrite lookup_insert_eq. split.
      * intros (group & [= <-] & Hh).
        destruct (AnsibleInventory.groups self !! g) as [old|].
        -- apply group_update_hosts_elem in Hh as [Hh|Hh];
             [left; by exists old|by right; left].
        -- unfold AnsibleGroup.__init__ in Hh.
           apply group_update_hosts_elem in Hh as [Hh|Hh];
             [cbn in Hh; set_solver|by right; left].
      * intros [(old & Hold & Hh)|[[_ Hh]|(gs' & vs' & Heq & _)]]; [| |done];
          (eexists; split; [done|]).
        -- rewrite Hold. apply group_update_hosts_elem. by left.
        -- destruct (AnsibleInventory.groups self !! g); unfold AnsibleGroup.__init__;
             apply group_update_hosts_elem; by right.
    + setoid_rewrite lookup_insert_ne; [|done]. naive_solver.
Qed.

Lemma member_of_apply_operation_mono self o h g :
  member_of self h g → member_of (apply_operation self o) h g.
Proof.
  intros (host & Hhost & Hg).
  destruct (proj1 (apply_operation_nothing_removed self o) h host Hhost)
    as (host' & Hhost' & Hsub & _).
  exists host'. split; [done|]. set_solver.
Qed.

Lemma member_of_apply_operation_other self o h g :
  (∀ gs vs, o ≠ UpsertHost h gs vs) →
  member_of (apply_operation self o) h g → member_of self h g.
Proof.
  intros Hother (host & Hhost & Hg).
  destruct o as [hostname gs vs|groupname cs hs vs]; cbn [apply_operation] in Hhost.
  - rewrite update_hosts_hosts in Hhost.
    destruct (decide (hostname = h)) as [->|Hne]; [by destruct (Hother gs vs)|].
    rewrite lookup_insert_ne in Hhost by done. by exists host.
  - rewrite update_groups_hosts in Hhost. by exists host.
Qed.

Lemma listed_in_run ops g h :
  listed_in (run ops AnsibleInventory.__init__) g h ↔
  (∃ o, o ∈ ops ∧ gives_host o g h) ∨ member_of (run ops AnsibleInventory.__init__) h g.
Proof.
  induction ops as [|o ops IH] using rev_ind.
  - split.
    + intros (group & Hg & _). cbn in Hg. by rewrite lookup_empty in Hg.
    + intros [(o & Ho & _)|(host & Hhost & _)]; [by apply elem_of_nil in Ho|].
      cbn in Hhost. by rewrite lookup_empty in Hhost.
  - rewrite run_snoc, listed_in_apply_operation, IH. split.
    + intros [[(o' & Ho & Hh)|Hm]|[Hh|(gs & vs & _ & Hm)]].
      * left. exists o'. split; [set_solver|done].
      * right. by apply member_of_apply_operation_mono.
      * left. exists o. split; [set_solver|done].
      * by right.
    + intros [(o' & Ho & Hh)|Hm].
      * apply elem_of_app in Ho as [Ho|Ho].
        -- left. left. by exists o'.
        -- apply list_elem_of_singleton in Ho. subst o'. right. by left.
      * destruct o as [hostname gs vs|groupname cs hs vs].
        -- destruct (decide (hostname = h)) as [->|Hne].
           ++ right. right. by exists gs, vs.
           ++ left. right. eapply member_of_apply_operation_other; [|done].
              intros gs' vs'. congruence.
        -- left. right. eapply member_of_apply_operation_other; [|done]. done.
Qed.

(** X6: after a sequence of upserts from the empty inventory, the hosts a
    group lists are the names the calls of [update_groups] for that group
    gave as hosts and the hosts that have the group among their groups, and
    no other. *)
Theorem group_hosts_exact ops g group h :
  AnsibleInventory.groups (run ops AnsibleInventory.__init__) !! g = Some group →
  h ∈ AnsibleGroup.hosts group ↔
  (∃ o, o ∈ ops ∧ gives_host o g h) ∨ member_of (run ops AnsibleInventory.__init__) h g.
Proof.
  intros Hg. rewrite <- listed_in_run. unfold listed_in. rewrite Hg. split.
  - intros Hh. by exists group.
  - by intros (group' & [= <-] & Hh).
Qed.

Lemma group_hosts_exact_witness :
  let ops := [UpsertGroup "web" None (Some ["ghost"]) None;
              UpsertHost "web1" (Some ["web"]) None] in
  ∃ group, AnsibleInventory.groups (run ops AnsibleInventory.__init__) !! "web" = Some group ∧
    ("web1" ∈ AnsibleGroup.hosts group ↔
     (∃ o, o ∈ ops ∧ gives_host o "web" "web1") ∨
     member_of (run ops AnsibleInventory.__init__) "web1" "web").
Proof.
  cbv zeta.
  destruct (AnsibleInventory.groups _ !! "web") as [group|] eqn:Hg;
    [|vm_compute in Hg; discriminate Hg].
  exists group. split; [done|]. by apply group_hosts_exact.
Defined.

Lemma host_update_var_lookup gs vs host k :
  AnsibleHost.host_vars (AnsibleHost.update gs vs host) !! k =
  match default ∅ vs !! k with
  | Some v => Some v
  | None => AnsibleHost.host_vars host !! k
  end.
Proof.
  destruct host as [n hs hv]. unfold AnsibleHost.update.
  destruct (truthy_dict vs) eqn:Hvs.
  - destruct (truthy_list gs); cbn; rewrite lookup_union;
      by destruct (default ∅ vs !! k), (hv !! k).
  - rewrite (truthy_dict_false_default _ Hvs), lookup_empty.
    by destruct (truthy_list gs).
Qed.

Lemma group_update_var_lookup cs hs vs group k :
  AnsibleGroup.group_vars (AnsibleGroup.update cs hs vs group) !! k =
  match default ∅ vs !! k with
  | Some v => Some v
  | None => AnsibleGroup.group_vars group !! k
  end.
Proof.
  destruct group as [n hs' cs' gv]. unfold AnsibleGroup.update. cbn.
  destruct (truthy_dict vs) eqn:Hvs.
  - rewrite lookup_union. by destruct (default ∅ vs !! k), (gv !! k).
  - by rewrite (truthy_dict_false_default _ Hvs), lookup_empty.
Qed.

Lemma host_var_apply_operation self o h k :
  host_var (apply_operation self o) h k =
  match host_write h k o with
  | Some v => Some v
  | None => host_var self h k
  end.
Proof.
  unfold host_var.
  destruct o as [hostname gs vs|groupname cs hs vs]; cbn [apply_operation host_write].
  - rewrite update_hosts_hosts. case_decide as Hh.
    + subst hostname. rewrite lookup_insert_eq. cbn. unfold upserted_host.
      destruct (AnsibleInventory.hosts self !! h) as [host|]; cbn.
      * apply host_update_var_lookup.
      * unfold AnsibleHost.__init__. rewrite host_update_var_lookup. cbn.
        by rewrite lookup_empty.
    + by rewrite lookup_insert_ne.
  - by rewrite update_groups_hosts.
Qed.

Lemma group_var_apply_operation self o g k :
  group_var (apply_operation self o) g k =
  match group_write g k o with
  | Some v => Some v
  | None => group_var self g k
  end.
Proof.
  unfold group_var.
  destruct o as [hostname gs vs|groupname cs hs vs]; cbn [apply_operation group_write].
  - rewrite update_hosts_groups. case_decide; [|done]. cbn.
    rewrite enrol_group_vars.
    destruct (AnsibleInventory.groups self !! g); cbn; [done|apply lookup_empty].
  - unfold AnsibleInventory.update_groups. cbn [AnsibleInventory.groups]. case_decide as Hg.
    + subst groupname. rewrite lookup_insert_eq. cbn [mbind option_bind].
      destruct (AnsibleInventory.groups self !! g) as [group|]; cbn [mbind option_bind].
      * apply group_update_var_lookup.
      * unfold AnsibleGroup.__init__. rewrite group_update_var_lookup.
        cbn [AnsibleGroup.group_vars]. by rewrite lookup_empty.
    + by rewrite lookup_insert_ne.
Qed.

Lemma last_write_run (var : AnsibleInventory.t → option attr_value)
    (write : operation → option attr_value) :
  (∀ self o, var (apply_operation self o) =
             match write o with Some v => Some v | None => var self end) →
  ∀ ops self,
    var (run ops self) =
    match last_write write ops with Some v => Some v | None => var self end.
Proof.
  intros Hstep ops. induction ops as [|o ops IH]; intros self; [done|].
  change (run (o :: ops) self) with (run ops (apply_operation self o)).
  rewrite IH, Hstep. cbn. by destruct (last_write write ops).
Qed.

(** X7: after a sequence of upserts from the empty inventory, a variable of
    a host, or of a group, has the value of the last upsert of that host, or
    group, whose variables hold its name, and is absent when no upsert holds
    it. *)
Theorem variables_last_write ops name k :
  host_var (run ops AnsibleInventory.__init__) name k = last_write (host_write name k) ops ∧
  group_var (run ops AnsibleInventory.__init__) name k = last_write (group_write name k) ops.
Proof.
  split.
  - rewrite (last_write_run (λ self, host_var self name k) (host_write name k)).
    + unfold host_var. cbn. rewrite lookup_empty. by destruct (last_write _ _).
    + intros self o. apply host_var_apply_operation.
  - rewrite (last_write_run (λ self, group_var self name k) (group_write name k)).
    + unfold group_var. cbn. rewrite lookup_empty. by destruct (last_write _ _).
    + intros self o. apply group_var_apply_operation.
Qed.

(** X8: the [hostvars] of the document have an entry for the hosts
    [update_hosts] was called for, and for no other name; the entry is there
    when the host has no variable at all. *)
Theorem hostvars_keys_exact ops h :
  is_Some (AnsibleInventory.hostvars (run ops AnsibleInventory.__init__) !! h) ↔
  ∃ gs vs, UpsertHost h gs vs ∈ ops.
Proof.
  rewrite hostvars_lookup, fmap_is_Some, run_hosts_is_Some. cbn.
  rewrite lookup_empty. split; [|by right].
  intros [Hnone|Hop]; [by destruct Hnone|done].
Qed.

Lemma group_is_Some_apply_operation self o g :
  is_Some (AnsibleInventory.groups (apply_operation self o) !! g) ↔
  is_Some (AnsibleInventory.groups self !! g) ∨
  (∃ cs hs vs, o = UpsertGroup g cs hs vs) ∨
  (∃ h gs vs, o = UpsertHost h gs vs ∧ member_of (apply_operation self o) h g).
Proof.
  destruct o as [hostname gs vs|groupname cs hs vs]; cbn [apply_operation].
  - rewrite update_hosts_groups. unfold member_of. rewrite update_hosts_hosts.
    case_decide as Hin.
    + split; [|by eexists]. intros _. right. right. exists hostname, gs, vs.
      split; [done|]. eexists. by rewrite lookup_insert_eq.
    + split; [by left|]. intros [?|[(? & ? & ? & ?)|(h & gs' & vs' & [= <- <- <-] & Hm)]];
        [done..|].
      destruct Hm as (host & Hhost & Hg). rewrite lookup_insert_eq in Hhost.
      injection Hhost as <-. done.
  - unfold AnsibleInventory.update_groups. cbn [AnsibleInventory.groups].
    destruct (decide (groupname = g)) as [->|Hne].
    + rewrite lookup_insert_eq. split; [|by eexists].
      intros _. right. left. by exists cs, hs, vs.
    + rewrite lookup_insert_ne by done. split; [by left|].
      intros [?|[(? & ? & ? & [= ?])|(? & ? & ? & ? & _)]]; done.
Qed.

(** X9: after a sequence of upserts from the empty inventory, the groups
    that exist, hence the sections of the document beside [_meta], are the
    groups [update_groups] was called for and the groups some host has among
    its groups, and no other. *)
Theorem groups_exact ops g :
  is_Some (AnsibleInventory.groups (run ops AnsibleInventory.__init__) !! g) ↔
  (∃ cs hs vs, UpsertGroup g cs hs vs ∈ ops) ∨
  (∃ h, member_of (run ops AnsibleInventory.__init__) h g).
Proof.
  induction ops as [|o ops IH] using rev_ind.
  - cbn. rewrite lookup_empty. split.
    + by intros [].
    + intros [(cs & hs & vs & Hin)|(h & host & Hhost & _)].
      * by apply elem_of_nil in Hin.
      * cbn in Hhost. by rewrite lookup_empty in Hhost.
  - rewrite run_snoc, group_is_Some_apply_operation, IH. split.
    + intros [[(cs & hs & vs & Hin)|(h & Hm)]|[(cs & hs & vs & ->)|(h & gs & vs & _ & Hm)]].
      * left. exists cs, hs, vs. set_solver.
      * right. exists h. by apply member_of_apply_operation_mono.
      * left. exists cs, hs, vs. set_solver.
      * right. by exists h.
    + intros [(cs & hs & vs & Hin)|(h & Hm)].
      * apply elem_of_app in Hin as [Hin|Hin].
        -- left. left. by exists cs, hs, vs.
        -- apply list_elem_of_singleton in Hin. subst o. right. left. by exists cs, hs, vs.
      * destruct o as [hostname gs vs|groupname cs hs vs].
        -- destruct (decide (hostname = h)) as [->|Hne].
           ++ right. right. by exists h, gs, vs.
           ++ left. right. exists h. eapply member_of_apply_operation_other; [|done].
              intros gs' vs'. congruence.
        -- left. right. exists h. eapply member_of_apply_operation_other; [|done]. done.
Qed.

(** ** What the records put into the document *)

Lemma operation_of_host resource h gs vs :
  operation_of resource = Ok (Some (UpsertHost h gs vs)) → declares_host resource h.
Proof.
  unfold operation_of, declares_host, is_ansible.
  destruct (type resource) as [ty|]; cbn; [|done].
  destruct (String.prefix "ansible_" ty); [|done].
  destruct (String.eqb_spec ty "ansible_host") as [->|_].
  { destruct (read_attr resource "inventory_hostname") as [[]|]; cbn; try done.
    all: destruct (read_list_attr resource "groups"); cbn; try done.
    all: destruct (read_dict_attr resource "vars"); cbn; try done.
    intros [= -> _ _]. split; [by left|done]. }
  destruct (String.eqb_spec ty "ansible_host_var") as [->|_].
  { destruct (read_attr resource "inventory_hostname") as [[]|]; cbn; try done.
    all: destruct (read_attr resource "key") as [[]|]; cbn; try done.
    all: destruct (read_attr resource "value"); cbn; try done.
    intros [= -> _ _]. split; [by right|done]. }
  destruct (String.eqb_spec ty "ansible_group") as [->|_].
  { destruct (read_attr resource "inventory_group_name"); cbn; [|done].
    destruct (read_list_attr resource "children"); cbn; [|done].
    destruct (read_dict_attr resource "vars"); cbn; [|done].
    by destruct (AnsibleInventory.as_str _ _). }
  destruct (String.eqb_spec ty "ansible_group_var") as [->|_]; [|done].
  destruct (read_attr resource "inventory_group_name"); cbn; [|done].
  destruct (read_attr resource "key"); cbn; [|done].
  destruct (read_attr resource "value"); cbn; [|done].
  destruct (AnsibleInventory.as_str "key" _); cbn; [|done].
  by destruct (AnsibleInventory.as_str _ _).
Qed.

(** No record hands hosts to [update_groups]: [add_group_resource] and
    [add_group_var_resource] leave that argument out. *)
Lemma operation_of_gives_no_host resource o g h :
  operation_of resource = Ok (Some o) → ¬ gives_host o g h.
Proof.
  destruct o as [hostname gs vs|groupname cs hs vs]; [by intros _ []|].
  unfold operation_of, is_ansible.
  destruct (type resource) as [ty|]; cbn; [|done].
  destruct (String.prefix "ansible_" ty); [|done].
  destruct (String.eqb_spec ty "ansible_host") as [->|_].
  { destruct (read_attr resource "inventory_hostname"); cbn; [|done].
    destruct (read_list_attr resource "groups"); cbn; [|done].
    destruct (read_dict_attr resource "vars"); cbn; [|done].
    by destruct (AnsibleInventory.as_str _ _). }
  destruct (String.eqb_spec ty "ansible_host_var") as [->|_].
  { destruct (read_attr resource "inventory_hostname"); cbn; [|done].
    destruct (read_attr resource "key"); cbn; [|done].
    destruct (read_attr resource "value"); cbn; [|done].
    destruct (AnsibleInventory.as_str "key" _); cbn; [|done].
    by destruct (AnsibleInventory.as_str _ _). }
  destruct (String.eqb_spec ty "ansible_group") as [->|_].
  { destruct (read_attr resource "inventory_group_name"); cbn; [|done].
    destruct (read_list_attr resource "children"); cbn; [|done].
    destruct (read_dict_attr resource "vars"); cbn; [|done].
    destruct (AnsibleInventory.as_str _ _); cbn; [|done].
    intros [= _ _ <- _] [_ Hh]. by apply elem_of_nil in Hh. }
  destruct (String.eqb_spec ty "ansible_group_var") as [->|_]; [|done].
  destruct (read_attr resource "inventory_group_name"); cbn; [|done].
  destruct (read_attr resource "key"); cbn; [|done].
  destruct (read_attr resource "value"); cbn; [|done].
  destruct (AnsibleInventory.as_str "key" _); cbn; [|done].
  destruct (AnsibleInventory.as_str _ _); cbn; [|done].
  intros [= _ _ <- _] [_ Hh]. by apply elem_of_nil in Hh.
Qed.

(** X10: in the document [_main] produces, every name a group lists under
    [hosts] is a host some [ansible_host] or [ansible_host_var] record
    declared: records never put an undeclared name into a [hosts] list. *)
Theorem listed_host_was_declared resources doc g gd h :
  _main resources = Ok doc →
  doc !! g = Some (GroupSection gd) →
  h ∈ dict_hosts gd →
  ∃ resource, resource ∈ resources ∧ declares_host resource h.
Proof.
  unfold _main. intros Hmain Hdoc Hh.
  destruct (main_loop resources AnsibleInventory.__init__) as [inventory|] eqn:Hloop;
    cbn in Hmain; [|done].
  injection Hmain as <-.
  destruct (main_loop_run _ _ _ Hloop) as (ops & Hops & ->).
  destruct (to_dict_group _ _ _ Hdoc) as (group & Hgroup & ->).
  cbn in Hh. apply sorted_elem_of in Hh.
  assert (Hlisted : listed_in (run (omap id ops) AnsibleInventory.__init__) g h)
    by by exists group.
  apply listed_in_run in Hlisted as [(o & Ho & Hgives)|(host & Hhost & _)].
  - exfalso. apply list_elem_of_omap in Ho as (oo & Hoo & Hid). cbn in Hid. subst oo.
    apply list_elem_of_lookup in Hoo as [i Hi].
    destruct (Forall2_lookup_r _ _ _ _ _ Hops Hi) as (r & _ & Hr).
    by apply (operation_of_gives_no_host r o g h).
  - assert (Hsome : is_Some (AnsibleInventory.hosts
               (run (omap id ops) AnsibleInventory.__init__) !! h)) by by eexists.
    apply run_hosts_is_Some in Hsome as [Hinit|(gs & vs & Hin)].
    { cbn in Hinit. rewrite lookup_empty in Hinit. by destruct Hinit. }
    apply list_elem_of_omap in Hin as (oo & Hoo & Hid). cbn in Hid. subst oo.
    apply list_elem_of_lookup in Hoo as [i Hi].
    destruct (Forall2_lookup_r _ _ _ _ _ Hops Hi) as (r & Hr & Hop).
    exists r. split; [by eapply list_elem_of_lookup_2|].
    by eapply operation_of_host.
Qed.

Lemma listed_host_was_declared_witness :
  ∃ resource,
    resource ∈ [nested_record "ansible_host"
                  [("inventory_hostname", AStr "web1"); ("groups", AList ["web"])]] ∧
    declares_host resource "web1".
Proof.
  apply (listed_host_was_declared _
           (AnsibleInventory.to_dict
              (AnsibleInventory.update_hosts "web1" (Some ["web"]) (Some ∅)
                 AnsibleInventory.__init__))
           "web" {| dict_children := []; dict_hosts := ["web1"]; dict_vars := ∅ |} "web1").
  - vm_compute. reflexivity.
  - vm_compute. reflexivity.
  - apply list_elem_of_singleton. reflexivity.
Defined.

Lemma run_member_of_mono ops self h g :
  member_of self h g → member_of (run ops self) h g.
Proof.
  intros Hm. induction ops as [|o ops IH] using rev_ind; [done|].
  rewrite run_snoc. by apply member_of_apply_operation_mono.
Qed.

Lemma host_record_operation resource h gs o :
  type resource = Ok "ansible_host" →
  read_attr resource "inventory_hostname" = Ok (AStr h) →
  read_list_attr resource "groups" = Ok gs →
  operation_of resource = Ok o →
  ∃ vs, o = Some (UpsertHost h gs vs).
Proof.
  intros Hty Hname Hgs. unfold operation_of, is_ansible. rewrite Hty, Hname, Hgs. cbn.
  destruct (read_dict_attr resource "vars") as [vs|]; cbn; [|done].
  intros [= <-]. by exists vs.
Qed.

(** X11: when [_main] produces its document, every group an [ansible_host]
    record lists for its host is a group of the document, and that group
    lists the host, though no record may have declared the group. *)
Theorem declared_membership_in_document resources resource h gs g doc :
  _main resources = Ok doc →
  resource ∈ resources →
  type resource = Ok "ansible_host" →
  read_attr resource "inventory_hostname" = Ok (AStr h) →
  read_list_attr resource "groups" = Ok (Some gs) →
  g ∈ gs →
  ∃ gd, doc !! g = Some (GroupSection gd) ∧ h ∈ dict_hosts gd.
Proof.
  unfold _main. intros Hmain Hin Hty Hname Hgs Hg.
  destruct (main_loop resources AnsibleInventory.__init__) as [inventory|] eqn:Hloop;
    cbn in Hmain; [|done].
  injection Hmain as <-.
  destruct (main_loop_run _ _ _ Hloop) as (ops & Hops & ->).
  apply list_elem_of_lookup in Hin as [i Hi].
  destruct (Forall2_lookup_l _ _ _ _ _ Hops Hi) as (o & Ho & Hop).
  destruct (host_record_operation _ _ _ _ Hty Hname Hgs Hop) as (vs & ->).
  assert (Hin : UpsertHost h (Some gs) vs ∈ omap id ops).
  { apply list_elem_of_omap. eexists. split; [by eapply list_elem_of_lookup_2|done]. }
  apply list_elem_of_split in Hin as (ops1 & ops2 & Heq). rewrite Heq.
  assert (Hm : member_of (run (ops1 ++ UpsertHost h (Some gs) vs :: ops2)%list
                            AnsibleInventory.__init__) h g).
  { rewrite run_app.
    change (run (?o :: ?l) ?s) with (run l (apply_operation s o)).
    apply run_member_of_mono. cbn [apply_operation]. unfold member_of.
    rewrite update_hosts_hosts, lookup_insert_eq. eexists; split; [done|].
    apply upserted_host_groups_elem. by right. }
  destruct Hm as (host & Hhost & Hgroups).
  destruct (run_memberships_registered _ _ init_memberships_registered
              h host g Hhost Hgroups) as (group & Hgroup & Hlisted).
  by eapply to_dict_hosts.
Qed.

Lemma declared_membership_in_document_witness :
  ∃ gd,
    AnsibleInventory.to_dict
      (AnsibleInventory.update_hosts "web1" (Some ["web"; "blue"]) (Some ∅)
         AnsibleInventory.__init__) !! "blue" = Some (GroupSection gd)
    ∧ "web1" ∈ dict_hosts gd.
Proof.
  apply (declared_membership_in_document
           [nested_record "ansible_host"
              [("inventory_hostname", AStr "web1"); ("groups", AList ["web"; "blue"])]]
           (nested_record "ansible_host"
              [("inventory_hostname", AStr "web1"); ("groups", AList ["web"; "blue"])])
           "web1" ["web"; "blue"] "blue").
  - vm_compute. reflexivity.
  - apply list_elem_of_singleton. reflexivity.
  - reflexivity.
  - reflexivity.
  - reflexivity.
  - apply elem_of_cons. right. apply list_elem_of_singleton. reflexivity.
Defined.

Lemma sorted_empty : sorted ∅ = [].
Proof. unfold sorted. by rewrite elements_empty. Qed.

(** X12: an [ansible_group_var] record for a group the inventory does not
    have creates that group: its section of the document has no children,
    no hosts and the one variable of the record. *)
Theorem group_var_creates_group inventory resource g k v :
  group_var_decl resource g k v →
  AnsibleInventory.groups inventory !! g = None →
  ∃ inventory', main_step inventory resource = Ok inventory' ∧
    AnsibleInventory.to_dict inventory' !! g =
    Some (GroupSection {| dict_children := []; dict_hosts := []; dict_vars := {[k := v]} |}).
Proof.
  intros Hdecl Hnone. eexists. split; [by apply group_var_decl_step|].
  rewrite to_dict_lookup. unfold AnsibleInventory.update_groups.
  cbn [AnsibleInventory.groups]. rewrite lookup_insert_eq, Hnone.
  unfold AnsibleGroup.__init__, AnsibleGroup.update.
  rewrite truthy_dict_singleton.
  unfold AnsibleGroup.to_dict, AnsibleGroup.tidy. cbn.
  by rewrite sorted_empty, (right_id_L ∅ (∪)).
Qed.

Lemma group_var_creates_group_witness :
  ∃ inventory',
    main_step AnsibleInventory.__init__
      (nested_record "ansible_group_var"
         [("inventory_group_name", AStr "db"); ("key", AStr "port"); ("value", AStr "5432")])
      = Ok inventory' ∧
    AnsibleInventory.to_dict inventory' !! "db" =
    Some (GroupSection
            {| dict_children := []; dict_hosts := []; dict_vars := {["port" := AStr "5432"]} |}).
Proof.
  apply group_var_creates_group.
  - repeat split; reflexivity.
  - reflexivity.
Defined.

(** * Further properties of the accessors *)

Lemma read_items_inv attrs key idx out res :
  read_items attrs key idx out = Ok res →
  ∃ vs, res = (out ++ vs)%list ∧
        Forall2 (λ i v, dict_get attrs (format_index key i) = Some (AStr v)) idx vs.
Proof.
  revert out. induction idx as [|i idx IH]; intros out; cbn.
  - intros [= <-]. exists []. by rewrite app_nil_r.
  - destruct (dict_get attrs (format_index key i)) as [[|v| |]|] eqn:Hi; try done.
    intros Hres. destruct (IH _ Hres) as (vs & -> & Hvs).
    exists (v :: vs). split; [by rewrite <- app_assoc|by constructor].
Qed.

(** X13: when [read_list_attr] returns a list for a pre-0.12 record whose
    attribute [key.#], a string of at most 4300 ASCII characters, reads as
    the integer [z], the list has exactly [z] elements, none for a negative
    [z], and its element of index [i] is the value stored under [key.i]. *)
Theorem flat_list_read_exact self attrs key v z vs :
  flat_attrs self = true →
  source_attributes self = Some attrs →
  dict_get attrs (key ++ ".#") = Some (AStr v) →
  plain_literal v = true →
  python_int v = Some z →
  read_list_attr self key = Ok (Some vs) →
  length vs = Z.to_nat z ∧
  ∀ i, (i < Z.to_nat z)%nat →
    ∃ x, vs !! i = Some x ∧ dict_get attrs (format_index key i) = Some (AStr x).
Proof.
  intros Hflat Hattrs Hlen _ Hint. unfold read_list_attr, _raw_attributes.
  rewrite Hattrs, Hflat. cbn. rewrite Hlen, Hint.
  destruct (Z.ltb_spec z 1) as [Hz|Hz].
  - intros [= <-]. replace (Z.to_nat z) with 0%nat by lia. split; [done|]. lia.
  - destruct (read_items attrs key (seq 0 (Z.to_nat z)) []) as [res|] eqn:Hres; cbn; [|done].
    intros [= <-]. destruct (read_items_inv _ _ _ _ _ Hres) as (vs & -> & Hvs). cbn.
    split.
    + rewrite <- (Forall2_length _ _ _ Hvs). by rewrite length_seq.
    + intros i Hi.
      destruct (Forall2_lookup_l _ _ _ i i Hvs) as (x & Hx & Hget).
      { by rewrite lookup_seq_lt. }
      by exists x.
Qed.

Lemma flat_list_read_exact_witness :
  length ["a"; "b"] = Z.to_nat 2 ∧
  ∀ i, (i < Z.to_nat 2)%nat →
    ∃ x, ["a"; "b"] !! i = Some x ∧
      dict_get [("groups.#", AStr "+2"); ("groups.0", AStr "a"); ("groups.1", AStr "b")]
        (format_index "groups" i) = Some (AStr x).
Proof.
  apply (flat_list_read_exact
           (flat_record "ansible_host"
              [("groups.#", AStr "+2"); ("groups.0", AStr "a"); ("groups.1", AStr "b")])
           _ "groups" "+2" 2 ["a"; "b"]); reflexivity.
Defined.

(** X14: on a pre-0.12 record whose attribute [key.#], a string of at most
    4300 ASCII characters, reads as an integer [z] of at least 1, the first
    index below [z] without an attribute [key.i] makes [read_list_attr]
    raise the [KeyError] of that attribute: a list shorter than announced is
    never returned. *)
Theorem flat_list_missing_item_raises self attrs key v z i :
  flat_attrs self = true →
  source_attributes self = Some attrs →
  dict_get attrs (key ++ ".#") = Some (AStr v) →
  plain_literal v = true →
  python_int v = Some z →
  (i < Z.to_nat z)%nat →
  dict_get attrs (format_index key i) = None →
  (∀ j, (j < i)%nat → ∃ x, dict_get attrs (format_index key j) = Some (AStr x)) →
  read_list_attr self key = Raise (KeyError (format_index key i)).
Proof.
  intros Hflat Hattrs Hlen _ Hint Hi Hnone Hbefore. unfold read_list_attr, _raw_attributes.
  rewrite Hattrs, Hflat. cbn. rewrite Hlen, Hint.
  destruct (Z.ltb_spec z 1) as [Hz|Hz]; [lia|].
  replace (Z.to_nat z) with (i + S (Z.to_nat z - S i))%nat by lia.
  rewrite seq_app. cbn [seq].
  assert (Hvs : ∃ vs, Forall2 (λ j x, dict_get attrs (format_index key j) = Some (AStr x))
                        (seq 0 i) vs).
  { clear Hi Hnone. induction i as [|i IH].
    - exists []. constructor.
    - destruct IH as (vs & Hvs); [intros j Hj; apply Hbefore; lia|].
      destruct (Hbefore i) as (x & Hx); [lia|].
      exists (vs ++ [x])%list. rewrite seq_S. cbn.
      apply Forall2_app; [done|]. by constructor. }
  destruct Hvs as (vs & Hvs).
  by rewrite (read_items_missing attrs key (seq 0 i) i _ vs []).
Qed.

Lemma flat_list_missing_item_raises_witness :
  read_list_attr
    (flat_record "ansible_host"
       [("groups.#", AStr "3"); ("groups.0", AStr "a"); ("groups.2", AStr "c")])
    "groups" = Raise (KeyError (format_index "groups" 1)).
Proof.
  apply (flat_list_missing_item_raises _
           [("groups.#", AStr "3"); ("groups.0", AStr "a"); ("groups.2", AStr "c")]
           "groups" "3" 3 1); try reflexivity.
  - vm_compute. lia.
  - intros [|j] Hj; [|lia]. by exists "a".
Defined.

Lemma read_dict_step_sound key (attrs : pydict) (out : gmap string attr_value) sub v :
  fold_left (read_dict_step key) attrs out !! sub = Some v →
  out !! sub = Some v ∨
  sub ≠ "%" ∧ ∃ k rest, (k, v) ∈ attrs ∧ k = (key ++ ".") ++ rest ∧ sub = dot_star rest.
Proof.
  revert out. induction attrs as [|[k w] attrs IH]; intros out; cbn [fold_left].
  - by left.
  - intros Hfold. destruct (IH _ Hfold) as [Hout|(Hsub & k' & rest & Hin & Hk & Hs)].
    + unfold read_dict_step, re_match_group1 in Hout. cbn [fst snd] in Hout.
      destruct (strip_prefix (key ++ ".") k) as [rest|] eqn:Hrest; cbn in Hout; [|by left].
      destruct (String.eqb_spec (dot_star rest) "%") as [|Hne]; [by left|].
      destruct (decide (dot_star rest = sub)) as [Heq|Hne'].
      * rewrite Heq, lookup_insert_eq in Hout. injection Hout as ->.
        right. split; [congruence|]. exists k, rest.
        split; [apply elem_of_cons; by left|].
        split; [by apply strip_prefix_Some|done].
      * rewrite lookup_insert_ne in Hout by done. by left.
    + right. split; [done|]. exists k', rest. split; [apply elem_of_cons; by right|done].
Qed.

(** X15: whatever the attributes of a pre-0.12 record are, and for a [key]
    without a character that is special in a regular expression, the map
    [read_dict_attr] returns for [key] has no entry for the marker [%], and
    each of its entries holds the value of an attribute whose name starts
    with [key.]: attributes of other keys never show in it. *)
Theorem flat_map_entries_sound self attrs key :
  flat_attrs self = true →
  source_attributes self = Some attrs →
  regex_plain key = true →
  ∃ out, read_dict_attr self key = Ok (Some out) ∧
    out !! "%" = None ∧
    ∀ sub v, out !! sub = Some v →
      ∃ k rest, (k, v) ∈ attrs ∧ k = (key ++ ".") ++ rest ∧ sub = dot_star rest.
Proof.
  intros Hflat Hattrs _. unfold read_dict_attr, _raw_attributes.
  rewrite Hattrs, Hflat. cbn. eexists; split; [done|]. split.
  - apply eq_None_not_Some. intros [v Hv].
    apply read_dict_step_sound in Hv as [Hv|[Hne _]]; [|done].
    by rewrite lookup_empty in Hv.
  - intros sub v Hv. apply read_dict_step_sound in Hv as [Hv|(_ & Hex)]; [|done].
    by rewrite lookup_empty in Hv.
Qed.

Lemma flat_map_entries_sound_witness :
  ∃ out,
    read_dict_attr
      (flat_record "ansible_host"
         [("vars.%", AStr "1"); ("vars.role", AStr "db"); ("varsity.x", AStr "y")]) "vars"
      = Ok (Some out) ∧
    out !! "%" = None ∧
    ∀ sub v, out !! sub = Some v →
      ∃ k rest,
        (k, v) ∈ [("vars.%", AStr "1"); ("vars.role", AStr "db"); ("varsity.x", AStr "y")] ∧
        k = ("vars" ++ ".") ++ rest ∧ sub = dot_star rest.
Proof. apply flat_map_entries_sound; reflexivity. Defined.

(** X16: when no attribute name of a pre-0.12 record holds a line feed, the
    map [read_dict_attr] returns for [key] has, for every sub-key other than
    [%], the value stored under [key.sub-key], and nothing else. *)
Theorem flat_map_read_exact self attrs key :
  flat_attrs self = true →
  source_attributes self = Some attrs →
  regex_plain key = true →
  dict_wf attrs →
  (∀ k, k ∈ attrs.*1 → has_line_feed k = false) →
  ∃ out, read_dict_attr self key = Ok (Some out) ∧
    ∀ sub v, out !! sub = Some v ↔
      sub ≠ "%" ∧ dict_get attrs ((key ++ ".") ++ sub) = Some v.
Proof.
  intros Hflat Hattrs _ Hwf Hlf. unfold read_dict_attr, _raw_attributes.
  rewrite Hattrs, Hflat. cbn. eexists; split; [done|].
  intros sub v. rewrite read_dict_step_fold by done. rewrite lookup_empty.
  destruct (String.eqb_spec sub "%") as [->|Hne].
  - split; [done|]. by intros [? _].
  - destruct (dict_get attrs ((key ++ ".") ++ sub)); naive_solver.
Qed.

Lemma flat_map_read_exact_witness :
  ∃ out,
    read_dict_attr
      (flat_record "ansible_host"
         [("vars.%", AStr "1"); ("vars.role", AStr "db"); ("varsity.x", AStr "y")]) "vars"
      = Ok (Some out) ∧
    ∀ sub v, out !! sub = Some v ↔
      sub ≠ "%" ∧
      dict_get [("vars.%", AStr "1"); ("vars.role", AStr "db"); ("varsity.x", AStr "y")]
        (("vars" ++ ".") ++ sub) = Some v.
Proof.
  apply flat_map_read_exact; try reflexivity.
  - unfold dict_wf. apply (bool_decide_unpack _). vm_compute. exact I.
  - intros k Hk. cbn in Hk.
    repeat (apply elem_of_cons in Hk as [->|Hk]; [reflexivity|]).
    by apply elem_of_nil in Hk.
Defined.

(** * Properties of the state document *)

Lemma resource_loop_app resources1 resources2 :
  resource_loop (resources1 ++ resources2)%list =
  match (resource_loop resources1).2 with
  | Some e => resource_loop resources1
  | None => ((resource_loop resources1).1 ++ (resource_loop resources2).1,
             (resource_loop resources2).2)%list
  end.
Proof.
  induction resources1 as [|r rs IH]; cbn.
  - by destruct (resource_loop resources2).
  - destruct (resource_instances r) as [[|i is']|]; [done| |done].
    destruct (resource_type r) as [ty|]; [|done]. cbn. rewrite IH.
    destruct (resource_loop rs) as [l [e|]]; cbn; [done|].
    by rewrite !app_assoc.
Qed.

Lemma module_loop_app modules1 modules2 :
  module_loop (modules1 ++ modules2)%list =
  match (module_loop modules1).2 with
  | Some e => module_loop modules1
  | None => ((module_loop modules1).1 ++ (module_loop modules2).1,
             (module_loop modules2).2)%list
  end.
Proof.
  induction modules1 as [|m ms IH]; cbn.
  - by destruct (module_loop modules2).
  - destruct (module_resources m) as [rs|]; [|done]. cbn. rewrite IH.
    destruct (module_loop ms) as [l [e|]]; cbn; [done|].
    by rewrite !app_assoc.
Qed.

(** Records of another provider leave the inventory as it is. *)
Lemma main_loop_skipped resources inventory :
  Forall (λ r, is_ansible r = Ok false) resources →
  main_loop resources inventory = Ok inventory.
Proof.
  induction 1 as [|r rs Hr _ IH]; cbn; [done|].
  unfold main_step. by rewrite Hr.
Qed.

Lemma main_loop_skip resources1 skipped resources2 inventory :
  Forall (λ r, is_ansible r = Ok false) skipped →
  main_loop (resources1 ++ skipped ++ resources2)%list inventory =
  main_loop (resources1 ++ resources2)%list inventory.
Proof.
  intros Hskip. rewrite (main_loop_app resources1), (main_loop_app resources1).
  destruct (main_loop resources1 inventory) as [inventory1|]; cbn; [|done].
  by rewrite main_loop_app, main_loop_skipped.
Qed.

(** X17: a resource of a 0.12 state whose type is not empty and does not
    start with [ansible_], and that has its list of instances, has no
    influence on what [_main] returns, whatever its instances hold: the
    document, or the exception, is that of the state without it. *)
Theorem other_resource_ignored before other after ty :
  resource_type other = Some ty →
  ty ≠ "" →
  String.prefix "ansible_" ty = false →
  is_Some (resource_instances other) →
  _main_from_state
    {| state_modules := None; state_resources := Some (before ++ other :: after)%list |} =
  _main_from_state
    {| state_modules := None; state_resources := Some (before ++ after)%list |}.
Proof.
  intros Hty Hne Hprefix [instances Hinst]. unfold _main_from_state. cbn.
  unfold TerraformState.resources. cbn.
  rewrite !resource_loop_app.
  destruct (resource_loop before) as [l1 [e|]]; cbn; [done|].
  rewrite Hinst. destruct instances as [|instance instances]; [done|].
  rewrite Hty. cbn [fst snd].
  change (typed_resource ty instance :: (typed_resource ty <$> instances) ++ ?l)%list
    with ((typed_resource ty <$> instance :: instances) ++ l)%list.
  rewrite main_loop_skip; [done|].
  apply Forall_fmap, Forall_true. intros instance'.
  destruct ty as [|a ty]; [done|].
  unfold is_ansible, type, typed_resource, compose. cbn [_type mbind result_bind].
  by rewrite Hprefix.
Qed.

Lemma other_resource_ignored_witness :
  _main_from_state
    {| state_modules := None;
       state_resources := Some
         [ {| resource_type := Some "aws_instance";
              resource_instances := Some
                [ {| json_type := None; json_attributes := None |} ] |};
           {| resource_type := Some "ansible_host";
              resource_instances := Some
                [ {| json_type := None;
                     json_attributes := Some [("inventory_hostname", AStr "web1")] |} ] |} ] |} =
  _main_from_state
    {| state_modules := None;
       state_resources := Some
         [ {| resource_type := Some "ansible_host";
              resource_instances := Some
                [ {| json_type := None;
                     json_attributes := Some [("inventory_hostname", AStr "web1")] |} ] |} ] |}.
Proof.
  apply (other_resource_ignored [] _ _ "aws_instance"); try reflexivity.
  - discriminate.
  - by eexists.
Defined.

(** X18: a resource of a module of a pre-0.12 state whose type does not
    start with [ansible_] has no influence on what [_main] returns,
    whatever its attributes are. *)
Theorem other_module_resource_ignored modules1 before name other after modules2 ty :
  json_type other = Some ty →
  String.prefix "ansible_" ty = false →
  _main_from_state
    {| state_modules := Some
         (modules1 ++ {| module_resources := Some (before ++ (name, other) :: after)%list |}
                   :: modules2)%list;
       state_resources := None |} =
  _main_from_state
    {| state_modules := Some
         (modules1 ++ {| module_resources := Some (before ++ after)%list |} :: modules2)%list;
       state_resources := None |}.
Proof.
  intros Hty Hprefix. unfold _main_from_state. cbn.
  unfold TerraformState.resources. cbn.
  rewrite !module_loop_app.
  destruct (module_loop modules1) as [l1 [e|]]; cbn; [done|].
  rewrite !fmap_app, !fmap_cons. cbn [snd].
  rewrite <- !app_assoc.
  change (flat_resource other :: ?l)%list with ([flat_resource other] ++ l)%list.
  rewrite <- (app_assoc [flat_resource other]).
  rewrite !(app_assoc l1 (flat_resource <$> before.*2)).
  rewrite main_loop_skip; [done|].
  constructor; [|constructor].
  unfold is_ansible, type. cbn. rewrite Hty. cbn. by rewrite Hprefix.
Qed.

Lemma other_module_resource_ignored_witness :
  _main_from_state
    {| state_modules := Some
         [ {| module_resources := Some
                [ ("aws_instance.web",
                   {| json_type := Some "aws_instance"; json_attributes := None |});
                  ("ansible_host.web",
                   {| json_type := Some "ansible_host";
                      json_attributes := Some [("inventory_hostname", AStr "web1")] |}) ] |} ];
       state_resources := None |} =
  _main_from_state
    {| state_modules := Some
         [ {| module_resources := Some
                [ ("ansible_host.web",
                   {| json_type := Some "ansible_host";
                      json_attributes := Some [("inventory_hostname", AStr "web1")] |}) ] |} ];
       state_resources := None |}.
Proof.
  apply (other_module_resource_ignored [] [] "aws_instance.web" _ _ [] "aws_instance");
    reflexivity.
Defined.

(** X19: all the records of a state are read in the format found when the
    state was wrapped: with a ["modules"] key every record is a pre-0.12
    one, and what the ["resources"] key holds, if it is there too, plays no
    part; without it every record is a 0.12 one. *)
Theorem records_share_format state_json :
  Forall (λ r, flat_attrs r =
               TerraformState.flat_attrs (TerraformState.__init__ state_json))
    (TerraformState.resources (TerraformState.__init__ state_json)).1 ∧
  (is_Some (state_modules state_json) →
   ∀ resources,
     TerraformState.resources (TerraformState.__init__ state_json) =
     TerraformState.resources
       (TerraformState.__init__
          {| state_modules := state_modules state_json; state_resources := resources |})).
Proof.
  split.
  - unfold TerraformState.resources. cbn.
    destruct (state_modules state_json) as [modules|]; cbn.
    + induction modules as [|m ms IH]; cbn; [constructor|].
      destruct (module_resources m) as [rs|]; cbn; [|constructor].
      apply Forall_app. split; [|done]. apply Forall_fmap, Forall_true. done.
    + destruct (state_resources state_json) as [resources|]; cbn; [|constructor].
      induction resources as [|r rs IH]; cbn; [constructor|].
      destruct (resource_instances r) as [[|i is']|]; [done| |constructor].
      destruct (resource_type r) as [ty|]; cbn; [|constructor].
      constructor; [done|]. apply Forall_app. split; [|done].
      apply Forall_fmap, Forall_true. done.
  - intros [modules Hm] resources. unfold TerraformState.resources. cbn. by rewrite Hm.
Qed.

Lemma records_share_format_witness :
  TerraformState.resources
    (TerraformState.__init__
       {| state_modules := Some [ {| module_resources := Some [] |} ];
          state_resources := None |}) =
  TerraformState.resources
    (TerraformState.__init__
       {| state_modules := Some [ {| module_resources := Some [] |} ];
          state_resources := Some [ {| resource_type := None; resource_instances := None |} ] |}).
Proof.
  apply (proj2 (records_share_format
                  {| state_modules := Some [ {| module_resources := Some [] |} ];
                     state_resources := None |})).
  by eexists.
Defined.

(** * The order of records *)

Lemma host_update_eq gs vs host :
  AnsibleHost.update gs vs host =
  {| AnsibleHost.hostname := AnsibleHost.hostname host;
     AnsibleHost.groups := AnsibleHost.groups host ∪ list_to_set (default [] gs);
     AnsibleHost.host_vars := default ∅ vs ∪ AnsibleHost.host_vars host |}.
Proof.
  destruct host as [n hs hv]. unfold AnsibleHost.update.
  destruct (truthy_dict vs) eqn:Hvs, (truthy_list gs) eqn:Hgs; cbn; f_equal.
  all: rewrite ?(truthy_list_false_default _ Hgs), ?(truthy_dict_false_default _ Hvs).
  all: rewrite ?(left_id_L ∅ (∪)); try done; set_solver.
Qed.

Lemma group_update_eq cs hs vs group :
  AnsibleGroup.update cs hs vs group =
  {| AnsibleGroup.groupname := AnsibleGroup.groupname group;
     AnsibleGroup.hosts := AnsibleGroup.hosts group ∪ list_to_set (default [] hs);
     AnsibleGroup.children := AnsibleGroup.children group ∪ list_to_set (default [] cs);
     AnsibleGroup.group_vars := default ∅ vs ∪ AnsibleGroup.group_vars group |}.
Proof.
  destruct group as [n hs' cs' gv]. unfold AnsibleGroup.update. cbn.
  destruct (truthy_dict vs) eqn:Hvs, (truthy_list hs) eqn:Hhs, (truthy_list cs) eqn:Hcs;
    f_equal.
  all: rewrite ?(truthy_list_false_default _ Hhs), ?(truthy_list_false_default _ Hcs),
         ?(truthy_dict_false_default _ Hvs).
  all: rewrite ?(left_id_L ∅ (∪)); try done; set_solver.
Qed.

Lemma union_apart (m1 m2 old : gmap string attr_value) :
  m1 ##ₘ m2 → m1 ∪ (m2 ∪ old) = m2 ∪ (m1 ∪ old).
Proof.
  intros Hd. rewrite !(assoc_L (∪)). f_equal. by apply map_union_comm.
Qed.

Lemma host_update_comm gs1 vs1 gs2 vs2 host :
  default ∅ vs1 ##ₘ default ∅ vs2 →
  AnsibleHost.update gs2 vs2 (AnsibleHost.update gs1 vs1 host) =
  AnsibleHost.update gs1 vs1 (AnsibleHost.update gs2 vs2 host).
Proof.
  intros Hd. rewrite !host_update_eq. cbn. f_equal; [set_solver|].
  symmetry. by apply union_apart.
Qed.

Lemma group_update_comm cs1 hs1 vs1 cs2 hs2 vs2 group :
  default ∅ vs1 ##ₘ default ∅ vs2 →
  AnsibleGroup.update cs2 hs2 vs2 (AnsibleGroup.update cs1 hs1 vs1 group) =
  AnsibleGroup.update cs1 hs1 vs1 (AnsibleGroup.update cs2 hs2 vs2 group).
Proof.
  intros Hd. rewrite !group_update_eq. cbn. f_equal; [set_solver..|].
  symmetry. by apply union_apart.
Qed.

Lemma upserted_group_comm g cs1 hs1 vs1 cs2 hs2 vs2 old :
  default ∅ vs1 ##ₘ default ∅ vs2 →
  upserted_group g cs2 hs2 vs2 (Some (upserted_group g cs1 hs1 vs1 old)) =
  upserted_group g cs1 hs1 vs1 (Some (upserted_group g cs2 hs2 vs2 old)).
Proof.
  intros Hd. destruct old as [group|]; cbn; unfold AnsibleGroup.__init__;
    by apply group_update_comm.
Qed.

Lemma enrol_upserted_group h g old : enrol h g old = upserted_group g None (Some [h]) None old.
Proof. done. Qed.

Lemma update_groups_lookup_eq groupname cs hs vs self g :
  AnsibleInventory.groups (AnsibleInventory.update_groups groupname cs hs vs self) !! g =
  if decide (groupname = g)
  then Some (upserted_group g cs hs vs (AnsibleInventory.groups self !! g))
  else AnsibleInventory.groups self !! g.
Proof.
  unfold AnsibleInventory.update_groups. cbn [AnsibleInventory.groups].
  case_decide as Hg.
  - subst. by rewrite lookup_insert_eq.
  - by rewrite lookup_insert_ne.
Qed.

Lemma map_disjoint_empty_default : (default ∅ None : gmap string attr_value) ##ₘ ∅.
Proof. apply map_disjoint_empty_r. Qed.

Lemma upserted_host_after h gs vs gs' vs' self :
  upserted_host h gs' vs' (AnsibleInventory.update_hosts h gs vs self) =
  AnsibleHost.update gs' vs' (upserted_host h gs vs self).
Proof.
  unfold upserted_host at 1. by rewrite update_hosts_hosts, lookup_insert_eq.
Qed.

(** Two upserts that write apart can be applied in either order. *)
Lemma apply_operation_comm self o1 o2 :
  writes_apart o1 o2 →
  apply_operation (apply_operation self o1) o2 =
  apply_operation (apply_operation self o2) o1.
Proof.
  intros Hapart.
  destruct o1 as [h1 gs1 vs1|g1 cs1 hs1 vs1], o2 as [h2 gs2 vs2|g2 cs2 hs2 vs2];
    cbn [apply_operation writes_apart] in *.
  - (* two hosts *)
    destruct (decide (h1 = h2)) as [->|Hne].
    + specialize (Hapart eq_refl).
      assert (Hhost : upserted_host h2 gs2 vs2
                        (AnsibleInventory.update_hosts h2 gs1 vs1 self) =
                      upserted_host h2 gs1 vs1
                        (AnsibleInventory.update_hosts h2 gs2 vs2 self)).
      { rewrite !upserted_host_after. unfold upserted_host, AnsibleHost.__init__.
        destruct (AnsibleInventory.hosts self !! h2); by apply host_update_comm. }
      apply inventory_eq.
      * apply map_eq. intros g. rewrite !update_hosts_groups, Hhost.
        assert (Hsub1 : g ∈ AnsibleHost.groups (upserted_host h2 gs1 vs1 self) →
                        g ∈ AnsibleHost.groups (upserted_host h2 gs1 vs1
                               (AnsibleInventory.update_hosts h2 gs2 vs2 self))).
        { rewrite <- Hhost, upserted_host_after. apply host_update_groups_mono. }
        assert (Hsub2 : g ∈ AnsibleHost.groups (upserted_host h2 gs2 vs2 self) →
                        g ∈ AnsibleHost.groups (upserted_host h2 gs1 vs1
                               (AnsibleInventory.update_hosts h2 gs2 vs2 self))).
        { rewrite upserted_host_after. apply host_update_groups_mono. }
        repeat case_decide; try tauto; by rewrite ?enrol_twice.
      * rewrite !update_hosts_hosts, Hhost, !insert_insert_eq. done.
    + assert (Hhost2 : upserted_host h2 gs2 vs2
                         (AnsibleInventory.update_hosts h1 gs1 vs1 self) =
                       upserted_host h2 gs2 vs2 self).
      { unfold upserted_host. by rewrite update_hosts_hosts, lookup_insert_ne. }
      assert (Hhost1 : upserted_host h1 gs1 vs1
                         (AnsibleInventory.update_hosts h2 gs2 vs2 self) =
                       upserted_host h1 gs1 vs1 self).
      { unfold upserted_host. by rewrite update_hosts_hosts, lookup_insert_ne. }
      apply inventory_eq.
      * apply map_eq. intros g. rewrite !update_hosts_groups, Hhost1, Hhost2.
        repeat case_decide; try done.
        rewrite !enrol_upserted_group. f_equal.
        apply upserted_group_comm. apply map_disjoint_empty_r.
      * rewrite !update_hosts_hosts, Hhost1, Hhost2. by apply insert_insert_ne.
  - (* a host, then a group *)
    apply inventory_eq.
    + apply map_eq. intros g.
      rewrite update_groups_lookup_eq, !update_hosts_groups, update_groups_lookup_eq.
      assert (Hhost : upserted_host h1 gs1 vs1
                        (AnsibleInventory.update_groups g2 cs2 hs2 vs2 self) =
                      upserted_host h1 gs1 vs1 self) by done.
      rewrite Hhost. repeat case_decide; try done.
      rewrite !enrol_upserted_group. f_equal.
      apply upserted_group_comm. apply map_disjoint_empty_l.
    + by rewrite update_groups_hosts, !update_hosts_hosts.
  - (* a group, then a host *)
    apply inventory_eq.
    + apply map_eq. intros g.
      rewrite update_groups_lookup_eq, !update_hosts_groups, update_groups_lookup_eq.
      assert (Hhost : upserted_host h2 gs2 vs2
                        (AnsibleInventory.update_groups g1 cs1 hs1 vs1 self) =
                      upserted_host h2 gs2 vs2 self) by done.
      rewrite Hhost. repeat case_decide; try done.
      rewrite !enrol_upserted_group. f_equal.
      apply upserted_group_comm. apply map_disjoint_empty_r.
    + by rewrite update_groups_hosts, !update_hosts_hosts.
  - (* two groups *)
    apply inventory_eq; [|done].
    apply map_eq. intros g. rewrite !update_groups_lookup_eq.
    repeat case_decide; try done. subst.
    f_equal. apply upserted_group_comm. by apply Hapart.
Qed.

(** X20: two records next to each other that both are accepted and do not
    write a common variable of the same host, or of the same group, can be
    exchanged: the loop of [_main] ends with the same inventory, or the same
    exception. *)
Theorem adjacent_records_exchange before first second after inventory o1 o2 :
  operation_of first = Ok o1 →
  operation_of second = Ok o2 →
  records_write_apart o1 o2 →
  main_loop (before ++ first :: second :: after) inventory =
  main_loop (before ++ second :: first :: after) inventory.
Proof.
  intros H1 H2 Hapart. rewrite !main_loop_app.
  destruct (main_loop before inventory) as [inventory1|]; cbn; [|done].
  rewrite !main_step_operation, H1, H2. cbn. rewrite !main_step_operation, H1, H2. cbn.
  f_equal. destruct o1 as [o1|], o2 as [o2|]; cbn; try done.
  by apply apply_operation_comm.
Qed.

Lemma adjacent_records_exchange_witness :
  main_loop
    [nested_record "ansible_host_var"
       [("inventory_hostname", AStr "web1"); ("key", AStr "role"); ("value", AStr "front")];
     nested_record "ansible_host"
       [("inventory_hostname", AStr "web1"); ("groups", AList ["web"]);
        ("vars", AMap {["tier" := "1"]})]]
    AnsibleInventory.__init__ =
  main_loop
    [nested_record "ansible_host"
       [("inventory_hostname", AStr "web1"); ("groups", AList ["web"]);
        ("vars", AMap {["tier" := "1"]})];
     nested_record "ansible_host_var"
       [("inventory_hostname", AStr "web1"); ("key", AStr "role"); ("value", AStr "front")]]
    AnsibleInventory.__init__.
Proof.
  apply (adjacent_records_exchange [] _ _ [] _
           (Some (UpsertHost "web1" None (Some {["role" := AStr "front"]})))
           (Some (UpsertHost "web1" (Some ["web"]) (Some {["tier" := AStr "1"]})))).
  - reflexivity.
  - unfold operation_of. cbn. by rewrite map_fmap_singleton.
  - cbn. intros _. apply map_disjoint_singleton_l, lookup_singleton_ne. discriminate.
Defined.

(** * The document as a whole *)

(** X21: the document has the key [_meta] and one key for each group, and
    no other; under [_meta] it holds the metadata with the [hostvars]
    exactly when no group bears that name. *)
Theorem document_sections self :
  (∀ key, is_Some (AnsibleInventory.to_dict self !! key) ↔
          key = "_meta" ∨ is_Some (AnsibleInventory.groups self !! key)) ∧
  (AnsibleInventory.to_dict self !! "_meta" =
     Some (MetaSection (AnsibleInventory.hostvars self)) ↔
   AnsibleInventory.groups self !! "_meta" = None).
Proof.
  split.
  - intros key. rewrite to_dict_lookup.
    destruct (AnsibleInventory.groups self !! key) as [group|].
    + split; [by right; eexists|by eexists].
    + case_decide as Hkey.
      * split; [by left|by eexists].
      * split; [by intros []|]. intros [?|[]]; done.
  - rewrite to_dict_lookup.
    destruct (AnsibleInventory.groups self !! "_meta") as [group|]; [done|].
    by rewrite decide_True.
Qed.

(** X22: when no record of the state belongs to the provider, [_main]
    produces the document that holds the metadata with empty [hostvars] and
    nothing else. *)
Theorem no_ansible_record_empty_document resources :
  Forall (λ r, is_ansible r = Ok false) resources →
  _main resources = Ok {["_meta" := MetaSection ∅]}.
Proof.
  intros Hskip. unfold _main. rewrite main_loop_skipped by done.
  vm_compute. reflexivity.
Qed.

Lemma no_ansible_record_empty_document_witness :
  _main [flat_record "aws_instance" [("id", AStr "i-1")];
         nested_record "null_resource" []]
  = Ok {["_meta" := MetaSection ∅]}.
Proof.
  apply no_ansible_record_empty_document.
  repeat constructor.
Defined.

(** X23: an [ansible_host] record whose groups and whose variables are
    absent, null or empty, for a host the inventory does not have, creates
    that host with the one group [all] and no variable: the host gets an
    empty entry in [hostvars] and is listed in [all]. *)
Theorem bare_host_record inventory resource h gs vs :
  type resource = Ok "ansible_host" →
  read_attr resource "inventory_hostname" = Ok (AStr h) →
  read_list_attr resource "groups" = Ok gs →
  truthy_list gs = false →
  read_dict_attr resource "vars" = Ok vs →
  truthy_dict vs = false →
  AnsibleInventory.hosts inventory !! h = None →
  ∃ inventory', main_step inventory resource = Ok inventory' ∧
    AnsibleInventory.hosts inventory' !! h =
      Some {| AnsibleHost.hostname := h; AnsibleHost.groups := {["all"]};
              AnsibleHost.host_vars := ∅ |} ∧
    AnsibleInventory.hostvars inventory' !! h = Some ∅ ∧
    listed_in inventory' "all" h.
Proof.
  intros Hty Hname Hgs Hgsf Hvs Hvsf Hnone.
  assert (Hhost : upserted_host h gs vs inventory =
                  {| AnsibleHost.hostname := h; AnsibleHost.groups := {["all"]};
                     AnsibleHost.host_vars := ∅ |}).
  { unfold upserted_host, AnsibleHost.__init__, AnsibleHost.update.
    by rewrite Hnone, Hgsf, Hvsf. }
  exists (AnsibleInventory.update_hosts h gs vs inventory). split.
  - unfold main_step, is_ansible, AnsibleInventory.add_resource. rewrite Hty. cbn.
    unfold AnsibleInventory.add_host_resource. by rewrite Hname, Hgs, Hvs.
  - split; [by rewrite update_hosts_hosts, lookup_insert_eq, Hhost|]. split.
    + by rewrite hostvars_lookup, update_hosts_hosts, lookup_insert_eq, Hhost.
    + unfold listed_in. rewrite update_hosts_groups, Hhost.
      rewrite decide_True by (cbn; set_solver).
      eexists; split; [done|]. rewrite enrol_hosts. set_solver.
Qed.

Lemma bare_host_record_witness :
  ∃ inventory',
    main_step AnsibleInventory.__init__
      (nested_record "ansible_host"
         [("inventory_hostname", AStr "web1"); ("groups", ANull)]) = Ok inventory' ∧
    AnsibleInventory.hosts inventory' !! "web1" =
      Some {| AnsibleHost.hostname := "web1"; AnsibleHost.groups := {["all"]};
              AnsibleHost.host_vars := ∅ |} ∧
    AnsibleInventory.hostvars inventory' !! "web1" = Some ∅ ∧
    listed_in inventory' "all" "web1".
Proof.
  apply (bare_host_record _ _ "web1" None (Some ∅)); reflexivity.
Defined.
